(** * Libre Clinica upload: a shallow embedding and its verified properties

    The development follows the two Python modules of the repository:

    - [query_engine_libre_clinica_github.py]: [QueryEngine.convert] and
      [QueryEngine.get_sparql_dataframe] (the result materializer);
    - [libre_clinica_request_github.py]: [get_lc_ss_oid] (the identity
      resolver) and [upload_to_lc] (the upload orchestrator).

    Python strings are sequences of code points, dictionaries are finite
    maps, and every effect of the program (a remote call, a log record, an
    exception, [sys.exit]) is explicit: a computation is a function from
    the history of events so far to a result and the extended history. *)

From Stdlib Require Import ZArith NArith List String Ascii Bool Lia.
From Stdlib Require Import Floats.SpecFloat.
From Stdlib Require Import DecimalString.
From stdpp Require Import base option list gmap strings.

Local Open Scope Z_scope.
Local Open Scope list_scope.

(** ** Python values *)

(** A Python [str]: the sequence of its code points ([ord] of each
    character). *)
Definition pystr : Type := list N.

(** A literal of the source text, as a Python string. *)
Definition lit (s : string) : pystr :=
  map N_of_ascii (list_ascii_of_string s).

(** The double quote character, which the payload templates embed. *)
Definition dq : pystr := [34%N].
(** The line feed character. *)
Definition nl : pystr := [10%N].

(** The scalar values that a data-frame cell holds in this program: [None],
    a string, an integer produced by [int], a float produced by [float]
    (binary64, with [np.NaN] the float NaN). *)
Inductive pyval : Type :=
  | PNone
  | PStr (s : pystr)
  | PInt (z : Z)
  | PFloat (f : spec_float).

(** [np.NaN], the missing-value marker of [convert]. *)
Definition np_NaN : pyval := PFloat S754_nan.

#[global] Instance spec_float_eq_dec : EqDecision spec_float.
Proof. solve_decision. Defined.
#[global] Instance pyval_eq_dec : EqDecision pyval.
Proof. solve_decision. Defined.

(** Exceptions the program can end with. [sys.exit(code)] raises
    [SystemExit], which nothing in the program catches. *)
Inductive exn : Type :=
  | ValueError
  | TypeError
  | OverflowError
  | IndexError
  | KeyError (key : pystr)
  | NameError (name : string)
  | RecursionError
  | SystemExit (code : Z)
  | TransportError (msg : pystr).

Inductive pyresult (A : Type) : Type :=
  | Ok (a : A)
  | Raise (e : exn).
Arguments Ok {A} a.
Arguments Raise {A} e.

(** ** Builtins on values *)

(** The exact integer value of a finite float, truncated towards zero
    (what [int(x)] computes on a float). *)
Definition float_trunc (f : spec_float) : pyresult Z :=
  match f with
  | S754_zero _ => Ok 0
  | S754_infinity _ => Raise OverflowError
  | S754_nan => Raise ValueError
  | S754_finite s m e =>
      let a := if (0 <=? e) then Z.shiftl (Z.pos m) e
               else Z.shiftr (Z.pos m) (- e) in
      Ok (if s then - a else a)
  end.

(** [x == n] for a float [x] and an integer [n]: Python compares the exact
    values; NaN and the infinities equal no integer. *)
Definition float_eq_int (f : spec_float) (n : Z) : bool :=
  match f with
  | S754_zero _ => n =? 0
  | S754_infinity _ | S754_nan => false
  | S754_finite s m e =>
      let v := if s then Z.neg m else Z.pos m in
      if (0 <=? e) then Z.shiftl v e =? n
      else v =? Z.shiftl n (- e)
  end.

(** [v == n] for a cell value and an integer literal of the source. A
    string or [None] never equals a number. *)
Definition py_eq_int (v : pyval) (n : Z) : bool :=
  match v with
  | PInt z => z =? n
  | PFloat f => float_eq_int f n
  | PNone | PStr _ => false
  end.

(** [isinstance(v, str)]. *)
Definition is_str (v : pyval) : bool :=
  match v with PStr _ => true | _ => false end.

(** [pd.notna(v)]: neither [None] nor NaN. *)
Definition pd_notna (v : pyval) : bool :=
  match v with
  | PNone => false
  | PFloat S754_nan => false
  | _ => true
  end.

(** [str(z)] for an integer: its decimal numeral. *)
Definition str_of_Z (z : Z) : pystr :=
  lit (NilZero.string_of_int (Z.to_int z)).

(** Equality of strings, as a boolean. *)
Definition pystr_eqb (a b : pystr) : bool := bool_decide (a = b).

(** [needle in hay] for strings: [needle] occurs as a contiguous
    substring. *)
Fixpoint starts_with (needle hay : pystr) : bool :=
  match needle, hay with
  | [], _ => true
  | _ :: _, [] => false
  | a :: needle', b :: hay' => (a =? b)%N && starts_with needle' hay'
  end.

Fixpoint str_contains (needle hay : pystr) : bool :=
  starts_with needle hay ||
  match hay with
  | [] => false
  | _ :: hay' => str_contains needle hay'
  end.

(** ** Requests, responses and the event history *)

(** The WS-Security header built from the user name and the password. *)
Record Header : Type := { username : pystr; password : pystr }.

(** The [subject] dictionary of [isStudySubject] and [create]:
    [{"label", "enrollmentDate", "subject": {} or {"gender": g},
      "studyRef": {"identifier"}}]. *)
Record Subject : Type := {
  label : pyval;
  enrollmentDate : pystr;
  subject_gender : option pyval;
  studyRef : pystr
}.

(** The [event] dictionary of [schedule]. *)
Record StudyEvent : Type := {
  studySubjectRef : pyval;
  event_studyRef : pystr;
  eventDefinitionOID : pystr;
  startDate : pystr;
  location : pystr
}.

(** What a SOAP operation returns: [ret["result"]], [ret["error"]] and the
    texts of [ret["_raw_elements"]]. *)
Record SoapRet : Type := {
  result : pystr;
  error : option pystr;
  raw_elements : list pystr
}.

(** The response of [requests.post] to the data service. *)
Record HttpResponse : Type := { status_code : Z; text : pystr }.

(** One cell of a SPARQL JSON result: the object
    [{"value": .., "type": .., "datatype": ..}], every key optional. *)
Record Binding : Type := {
  b_value : option pystr;
  b_type : option pystr;
  b_datatype : option pystr
}.

(** The decoded JSON body of a SPARQL answer: [head.vars] and
    [results.bindings]. *)
Record SparqlResults : Type := {
  head_vars : list pystr;
  bindings : list (gmap pystr Binding)
}.

(** The answer of the SPARQL endpoint: the status code, and what
    [result.json()] and the lookups of [head.vars] and [results.bindings]
    give, which is an exception for a body of another shape. *)
Record SparqlResponse : Type := {
  sparql_status : Z;
  sparql_json : pyresult SparqlResults
}.

(** The remote operations of the program, with their arguments. *)
Inductive RemoteCall : Type :=
  | SparqlPost (endpoint : option pystr)
               (auth : option (option pystr * option pystr)) (query : pystr)
  | IsStudySubject (wsdl : pystr) (hdr : Header) (s : Subject)
  | Create (wsdl : pystr) (hdr : Header) (s : Subject)
  | Schedule (wsdl : pystr) (hdr : Header) (ev : StudyEvent)
  | DataPost (url : pystr) (data : pystr).

Inductive Level : Type := INFO | WARNING | ERROR | CRITICAL.

(** An entry of [failed_subjects]: [{"subject": label, "error": text}]. *)
Record Failure : Type := { failed_subject : pyval; failed_error : pystr }.

(** The log records of the program, one constructor per format string of
    the source, carrying the interpolated values. *)
Inductive LogMsg : Type :=
  | MsgTryingOid (ss_label : pyval)
  | MsgFoundOid (oid : pystr)
  | MsgCreatingNew
  | MsgRerunning
  | MsgCouldNotCreate (err : option pystr)
  | MsgOidNotAvailable
  | MsgGateDisabled
  | MsgRetrieving (sparql_endpoint : pystr)
  | MsgStatusCode (code : Z)
  | MsgNoData
  | MsgReceivedRows (n : nat)
  | MsgHaveColumns (cols : list pystr)
  | MsgIteration (n : nat)
  | MsgAdding (ss_label : pyval)
  | MsgGotOid (oid : pystr)
  | MsgScheduleCode (res : pystr)
  | MsgNonSuccess (err : option pystr)
  | MsgStartingUpload (ss_label : pyval)
  | MsgUploadStatus (code : Z)
  | MsgSucceeded
  | MsgResultText (txt : pystr)
  | MsgFailedSubject (f : Failure)
  | MsgNoResultOrError (response_text : pystr)
  | MsgFailedSubjects (fs : list Failure)
  | MsgTotalExpected (n : nat)
  | MsgNumFailed (n : nat).

Inductive Event : Type :=
  | Call (c : RemoteCall)
  | Log (lvl : Level) (m : LogMsg).

(** The history of a run, oldest event first. *)
Definition Trace : Type := list Event.

(** The world outside the process. Every answer may depend on the whole
    history so far, so a remote system with state of its own is covered;
    a transport failure is an answer [Raise e]. Building a SOAP client
    from its service description belongs to the call it serves, and the
    WS-Security header is kept as the pair of credentials it is built
    from. *)
Record Remote : Type := {
  sparql_endpoint_post :
    Trace -> option pystr -> option (option pystr * option pystr) -> pystr ->
    pyresult SparqlResponse;
  service_isStudySubject : Trace -> pystr -> Header -> Subject -> pyresult SoapRet;
  service_create : Trace -> pystr -> Header -> Subject -> pyresult SoapRet;
  service_schedule : Trace -> pystr -> Header -> StudyEvent -> pyresult SoapRet;
  data_post : Trace -> pystr -> pystr -> pyresult HttpResponse;
  (** [datetime.datetime.now().strftime("%Y-%m-%d")] *)
  today : Trace -> pystr
}.

(** Library functions the program calls and whose code is not part of the
    repository. *)
Record PyLib : Type := {
  (** [int(s)] on a string; [None] stands for [ValueError]. *)
  int_of_str : pystr -> option Z;
  (** [float(s)] on a string; [None] stands for [ValueError]. *)
  float_of_str : pystr -> option spec_float;
  (** [float(n)] on an integer; [None] stands for [OverflowError]. *)
  float_of_int : Z -> option spec_float;
  (** [str(x)] on a float. *)
  str_of_float : spec_float -> pystr;
  (** The transliteration table of [unidecode] for the code points from
      128 on. *)
  unidecode_table : N -> pystr;
  (** [BeautifulSoup(doc, features="lxml").find_all(tag)]: the [.text] of
      every element named [tag], in document order. *)
  find_all : pystr -> pystr -> list pystr
}.

(** ** Computations *)

Module Py.

(** A computation reads the history, extends it, and returns a value or
    ends with an exception. *)
Definition M (A : Type) : Type := Trace -> pyresult A * Trace.

Definition ret {A} (a : A) : M A := fun t => (Ok a, t).

Definition bind {A B} (m : M A) (k : A -> M B) : M B :=
  fun t =>
    match m t with
    | (Ok a, t') => k a t'
    | (Raise e, t') => (Raise e, t')
    end.

Definition raise {A} (e : exn) : M A := fun t => (Raise e, t).

(** [logger.<lvl>(msg)] *)
Definition logger (lvl : Level) (msg : LogMsg) : M unit :=
  fun t => (Ok tt, t ++ [Log lvl msg]).

(** A remote call: the call enters the history, the world answers from
    the history before it. *)
Definition perform {A} (c : RemoteCall) (answer : Trace -> pyresult A) : M A :=
  fun t => (answer t, t ++ [Call c]).

(** Reading the world without calling it (the clock). *)
Definition observe {A} (f : Trace -> A) : M A := fun t => (Ok (f t), t).

(** [sys.exit(code)] *)
Definition sys_exit {A} (code : Z) : M A := raise (SystemExit code).

End Py.
Import Py.

Notation "'let*' x ':=' m 'in' k" := (bind m (fun x => k))
  (at level 10, x name, m at level 100, k at level 200).

(** ** The identity resolver: [get_lc_ss_oid] *)

Section Resolver.

Variable remote : Remote.

(** [ret["_raw_elements"].pop().text]: the text of the last raw element;
    popping from an empty sequence raises. *)
Definition pop_text (raw : list pystr) : M pystr :=
  match last raw with
  | Some oid => ret oid
  | None => raise IndexError
  end.

(** [client.service.isStudySubject(subject, _soapheaders=[header])] *)
Definition client_isStudySubject (wsdl : pystr) (hdr : Header) (s : Subject)
  : M SoapRet :=
  perform (IsStudySubject wsdl hdr s)
          (fun t => service_isStudySubject remote t wsdl hdr s).

(** [client.service.create(subject, _soapheaders=[header])] *)
Definition client_create (wsdl : pystr) (hdr : Header) (s : Subject)
  : M SoapRet :=
  perform (Create wsdl hdr s) (fun t => service_create remote t wsdl hdr s).

(** ["m" if ss_gender == 1 else "f" if ss_gender == 2 else ss_gender] *)
Definition gender_code (ss_gender : pyval) : pyval :=
  if py_eq_int ss_gender 1 then PStr (lit "m")
  else if py_eq_int ss_gender 2 then PStr (lit "f")
  else ss_gender.

(** The body of [get_lc_ss_oid]. The source calls itself only from the
    branch [not rerun], and then with [rerun=True]; [calls_left] bounds
    the activations, and running out of them is Python's
    [RecursionError]. *)
Fixpoint get_lc_ss_oid_rec (calls_left : nat)
    (lc_endpoint lc_user lc_password study_identifier : pystr)
    (ss_label ss_gender : pyval) (rerun : bool) : M pystr :=
  match calls_left with
  | O => raise RecursionError
  | S calls_left' =>
    let* _ := logger INFO (MsgTryingOid ss_label) in
    let client := lc_endpoint ++ lit "study/v1/studySubjectWsdl.wsdl" in
    let header := {| username := lc_user; password := lc_password |} in
    let subject := {| label := ss_label;
                      enrollmentDate := lit "1900-01-01";
                      subject_gender := None;
                      studyRef := study_identifier |} in
    let* r := client_isStudySubject client header subject in
    if pystr_eqb (result r) (lit "Success") then
      let* oid := pop_text (raw_elements r) in
      let* _ := logger INFO (MsgFoundOid oid) in
      ret oid
    else if negb rerun then
      let* _ := logger INFO MsgCreatingNew in
      let* now := observe (today remote) in
      let subject := {| label := ss_label;
                        enrollmentDate := now;
                        subject_gender := Some (gender_code ss_gender);
                        studyRef := study_identifier |} in
      let* r := client_create client header subject in
      if pystr_eqb (result r) (lit "Success") then
        let* _ := logger INFO MsgRerunning in
        get_lc_ss_oid_rec calls_left' lc_endpoint lc_user lc_password
                          study_identifier ss_label ss_gender true
      else
        let* _ := logger WARNING (MsgCouldNotCreate (error r)) in
        ret []
    else
      let* _ := logger INFO MsgOidNotAvailable in
      ret []
  end.

(** [get_lc_ss_oid]: a call with [rerun=True] needs one activation, a
    call with [rerun=False] at most two. *)
Definition get_lc_ss_oid
    (lc_endpoint lc_user lc_password study_identifier : pystr)
    (ss_label ss_gender : pyval) (rerun : bool) : M pystr :=
  get_lc_ss_oid_rec (if rerun then 1 else 2)
                    lc_endpoint lc_user lc_password study_identifier
                    ss_label ss_gender rerun.

End Resolver.

(** ** The result materializer: [QueryEngine] *)

(** Sequencing of results that may be an exception. *)
Definition rbind {A B} (r : pyresult A) (k : A -> pyresult B) : pyresult B :=
  match r with
  | Ok a => k a
  | Raise e => Raise e
  end.

Notation "'let?' x ':=' r 'in' k" := (rbind r (fun x => k))
  (at level 10, x name, r at level 100, k at level 200).

(** A pure step inside a computation: the history is left as it is. *)
Definition lift {A} (r : pyresult A) : M A := fun t => (r, t).

(** [for x in xs: acc = f(acc, x)], stopping at the first exception. *)
Fixpoint foldM {A B} (f : A -> B -> pyresult A) (acc : A) (xs : list B)
  : pyresult A :=
  match xs with
  | [] => Ok acc
  | x :: xs' => let? acc' := f acc x in foldM f acc' xs'
  end.

(** [[f(x) for x in xs]], stopping at the first exception. *)
Fixpoint mapM {A B} (f : A -> pyresult B) (xs : list A) : pyresult (list B) :=
  match xs with
  | [] => Ok []
  | x :: xs' =>
      let? y := f x in
      let? ys := mapM f xs' in
      Ok (y :: ys)
  end.

(** The column types the materializer assigns: pandas' [object] (free
    text, the type of a fresh column), ["category"], ["Int64"] and
    ["Float64"]. *)
Inductive dtype : Type := DObject | DCategory | DInt64 | DFloat64.

#[global] Instance dtype_eq_dec : EqDecision dtype.
Proof. solve_decision. Defined.

Record Series : Type := { series_dtype : dtype; series_values : list pyval }.

(** A data frame: its columns in order, each with its name, and the number
    of rows [len(df)]. The names in [head.vars] of a SPARQL result are
    pairwise distinct; [df[col]] addresses the column of that name. *)
Record DataFrame : Type := {
  df_columns : list (pystr * Series);
  df_len : nat
}.

(** [df.columns] *)
Definition columns_of (df : DataFrame) : list pystr := map fst (df_columns df).

(** [pd.DataFrame(out, columns=columns)]: column [j] collects the [j]-th
    item of every row of [out]. *)
Definition pd_DataFrame (out : list (list pyval)) (columns : list pystr)
  : DataFrame :=
  {| df_columns :=
       imap (fun j col =>
               (col, {| series_dtype := DObject;
                        series_values := map (fun item => default PNone (item !! j)) out |}))
            columns;
     df_len := length out |}.

(** [df[col]] *)
Definition df_get (df : DataFrame) (col : pystr) : pyresult Series :=
  match list_find (fun c => fst c = col) (df_columns df) with
  | Some (_, (_, s)) => Ok s
  | None => Raise (KeyError col)
  end.

(** [df[col] = s] for a column that exists. *)
Definition df_set (df : DataFrame) (col : pystr) (s : Series) : DataFrame :=
  {| df_columns :=
       map (fun c => if bool_decide (fst c = col) then (col, s) else c)
           (df_columns df);
     df_len := df_len df |}.

(** [series.astype(d)]: the column gets the type [d]; a missing cell
    ([None] or NaN) is the missing value of the typed column, for which
    the model keeps the one marker [np_NaN]. *)
Definition astype (d : dtype) (s : Series) : Series :=
  {| series_dtype := d;
     series_values :=
       map (fun v => if pd_notna v then v else np_NaN) (series_values s) |}.

(** [series.apply(f)] *)
Definition series_apply (f : pyval -> pyresult pyval) (s : Series)
  : pyresult Series :=
  let? vs := mapM f (series_values s) in
  Ok {| series_dtype := series_dtype s; series_values := vs |}.

Definition xsd_int : pystr := lit "http://www.w3.org/2001/XMLSchema#int".
Definition xsd_integer : pystr := lit "http://www.w3.org/2001/XMLSchema#integer".
Definition xsd_double : pystr := lit "http://www.w3.org/2001/XMLSchema#double".
Definition xsd_string : pystr := lit "http://www.w3.org/2001/XMLSchema#string".

Definition literal_variable_types : gset pystr :=
  {[ lit "literal"; lit "typed-literal" ]}.

Definition integer_data_types : gset pystr := {[ xsd_int; xsd_integer ]}.

(** [x in s] for an optional string and a set of strings: [None] is in no
    set of strings. *)
Definition opt_in (x : option pystr) (s : gset pystr) : bool :=
  match x with
  | Some v => bool_decide (v ∈ s)
  | None => false
  end.

(** [x == "..."] for an optional string. *)
Definition opt_is (x : option pystr) (v : pystr) : bool :=
  bool_decide (x = Some v).

(** [row.get(col, {})]: the binding of [col], or the empty dictionary. *)
Definition row_get (row : gmap pystr Binding) (col : pystr) : Binding :=
  default {| b_value := None; b_type := None; b_datatype := None |}
          (row !! col).

(** [binding.get("value")]: the string of the cell, or [None]. *)
Definition binding_value (b : Binding) : pyval :=
  match b_value b with
  | Some s => PStr s
  | None => PNone
  end.

Section QueryEngine.

Variable lib : PyLib.
Variable remote : Remote.
(** The environment variables of the process, [os.getenv]. *)
Variable environ : gmap string pystr.

(** The builtin [int] as a callable. *)
Definition py_int (v : pyval) : pyresult pyval :=
  match v with
  | PNone => Raise TypeError
  | PStr s =>
      match int_of_str lib s with
      | Some z => Ok (PInt z)
      | None => Raise ValueError
      end
  | PInt z => Ok (PInt z)
  | PFloat f => let? z := float_trunc f in Ok (PInt z)
  end.

(** The builtin [float] as a callable. *)
Definition py_float (v : pyval) : pyresult pyval :=
  match v with
  | PNone => Raise TypeError
  | PStr s =>
      match float_of_str lib s with
      | Some f => Ok (PFloat f)
      | None => Raise ValueError
      end
  | PInt z =>
      match float_of_int lib z with
      | Some f => Ok (PFloat f)
      | None => Raise OverflowError
      end
  | PFloat f => Ok (PFloat f)
  end.

(** [QueryEngine.convert(column, cast_to)] *)
Definition convert (column : pyval) (cast_to : pyval -> pyresult pyval)
  : pyresult pyval :=
  match column with
  | PNone => Ok np_NaN
  | _ =>
      match cast_to column with
      | Raise ValueError => Ok np_NaN
      | tmp => tmp
      end
  end.

(** The body of [for col in columns] in [get_sparql_dataframe]: the type
    of [col] is read off [first_row]. *)
Definition retype_column (first_row : gmap pystr Binding)
    (df : DataFrame) (col : pystr) : pyresult DataFrame :=
  let var_type := b_type (row_get first_row col) in
  let? df :=
    if opt_is var_type (lit "uri") then
      let? s := df_get df col in
      Ok (df_set df col (astype DCategory s))
    else Ok df in
  if opt_in var_type literal_variable_types then
    let data_type := b_datatype (row_get first_row col) in
    let? df :=
      if opt_in data_type integer_data_types then
        let? s := df_get df col in
        let? s := series_apply (fun x => convert x py_int) s in
        Ok (df_set df col (astype DInt64 s))
      else Ok df in
    let? df :=
      if opt_is data_type xsd_double then
        let? s := df_get df col in
        let? s := series_apply (fun x => convert x py_float) s in
        Ok (df_set df col (astype DFloat64 s))
      else Ok df in
    if opt_is data_type xsd_string then
      let? s := df_get df col in
      Ok (df_set df col (astype DCategory s))
    else Ok df
  else Ok df.

(** [get_sparql_dataframe] from [processed_results = result.json()] on:
    the frame is built from the values, then retyped if there is a first
    row. A missing ["value"] is [None]. *)
Definition dataframe_of_results (processed_results : SparqlResults)
  : pyresult DataFrame :=
  let columns := head_vars processed_results in
  let out :=
    map (fun row =>
           map (fun col => binding_value (row_get row col)) columns)
        (bindings processed_results) in
  let df_sparql := pd_DataFrame out columns in
  match bindings processed_results with
  | first_row :: _ => foldM (retype_column first_row) df_sparql columns
  | [] => Ok df_sparql
  end.

(** [QueryEngine.get_sparql_dataframe(query, auth_required)]. The
    endpoint is read from the environment, not from the engine. *)
Definition get_sparql_dataframe (query : pystr) (auth_required : bool)
  : M DataFrame :=
  let query_endpoint := environ !! "SPARQL_QUERY_ENDPOINT"%string in
  let auth :=
    if auth_required
    then Some (environ !! "USER"%string, environ !! "USER_PWD"%string)
    else None in
  let* r := perform (SparqlPost query_endpoint auth query)
                    (fun t => sparql_endpoint_post remote t query_endpoint auth query) in
  let* _ := logger INFO (MsgStatusCode (sparql_status r)) in
  let* processed_results := lift (sparql_json r) in
  lift (dataframe_of_results processed_results).

End QueryEngine.

(** ** The upload orchestrator: [upload_to_lc] *)

(** [LCConfig]. After [__init__], [alternative_item_oids] is a
    dictionary. *)
Record LCConfig : Type := {
  sparql_endpoint : pystr;
  query : pystr;
  lc_endpoint : pystr;
  lc_user : pystr;
  lc_password : pystr;
  study_oid : pystr;
  study_identifier : pystr;
  event_oid : pystr;
  form_oid : pystr;
  item_group_oid : pystr;
  identifier_colname : pystr;
  gender_colname : pystr;
  item_prefix : pystr;
  alternative_item_oids : gmap pystr pystr;
  perform_query : bool
}.

(** A row yielded by [df.iterrows()]: the cells of one record, labelled by
    the column names, in column order. *)
Definition Row : Type := list (pystr * pyval).

(** [row[name]] *)
Definition row_item (row : Row) (name : pystr) : pyresult pyval :=
  match list_find (fun c => fst c = name) row with
  | Some (_, (_, v)) => Ok v
  | None => Raise (KeyError name)
  end.

(** [row[name] = v] for a label that exists. *)
Definition row_set (row : Row) (name : pystr) (v : pyval) : Row :=
  map (fun c => if bool_decide (fst c = name) then (name, v) else c) row.

(** [df.rename(columns=mapping)] *)
Definition df_rename (df : DataFrame) (mapping : gmap pystr pystr) : DataFrame :=
  {| df_columns := map (fun c => (default (fst c) (mapping !! fst c), snd c))
                       (df_columns df);
     df_len := df_len df |}.

(** [df.iterrows()]: the rows, first to last. *)
Definition df_iterrows (df : DataFrame) : list Row :=
  map (fun i => map (fun c => (fst c, default PNone (series_values (snd c) !! i)))
                    (df_columns df))
      (seq 0 (df_len df)).

(** A double-quoted attribute value of the payload templates. *)
Definition quoted (s : pystr) : pystr := dq ++ s ++ dq.

(** The f-string [subject_xml] of [upload_to_lc], character for character. *)
Definition subject_xml (ss_oid event_oid form_oid item_group_oid items : pystr) : pystr :=
    lit "
            <SubjectData SubjectKey=" ++
    quoted ss_oid ++
    lit ">
                <StudyEventData StudyEventOID=" ++
    quoted event_oid ++
    lit " StudyEventRepeatKey=" ++
    quoted (lit "1") ++
    lit ">
                    <FormData FormOID=" ++
    quoted form_oid ++
    lit " OpenClinica:Status=" ++
    quoted (lit "initial data entry") ++
    lit ">
                        <ItemGroupData ItemGroupOID=" ++
    quoted item_group_oid ++
    lit " ItemGroupRepeatKey=" ++
    quoted (lit "1") ++
    lit " TransactionType=" ++
    quoted (lit "Insert") ++
    lit ">
                            " ++
    items ++
    lit "
                        </ItemGroupData>
                    </FormData>
                </StudyEventData>
            </SubjectData>
        ".

(** The f-string [submit_data] of [upload_to_lc], character for character. *)
Definition submit_data (lc_user lc_password study_oid subject_xml : pystr) : pystr :=
    lit "
            <soapenv:Envelope xmlns:soapenv=" ++
    quoted (lit "http://schemas.xmlsoap.org/soap/envelope/") ++
    lit " xmlns:v1=" ++
    quoted (lit "http://openclinica.org/ws/data/v1") ++
    lit " xmlns:OpenClinica=" ++
    quoted (lit "http://www.openclinica.org/ns/odm_ext_v130/v3.1") ++
    lit ">
                <soapenv:Header>
                    <wsse:Security soapenv:mustUnderstand=" ++
    quoted (lit "1") ++
    lit " xmlns:wsse=" ++
    quoted (lit "http://docs.oasis-open.org/wss/2004/01/oasis-200401-wss-wssecurity-secext-1.0.xsd") ++
    lit ">
                        <wsse:UsernameToken wsu:Id=" ++
    quoted (lit "UsernameToken-27777511") ++
    lit " xmlns:wsu=" ++
    quoted (lit "http://docs.oasis-open.org/wss/2004/01/oasis-200401-wss-wssecurity-utility-1.0.xsd") ++
    lit ">
                            <wsse:Username>" ++
    lc_user ++
    lit "</wsse:Username>
                            <wsse:Password Type=" ++
    quoted (lit "http://docs.oasis-open.org/wss/2004/01/oasis-200401-wss-username-token-profile-1.0#PasswordText") ++
    lit ">" ++
    lc_password ++
    lit "</wsse:Password>
                        </wsse:UsernameToken>
                    </wsse:Security>
                </soapenv:Header>
                <soapenv:Body>
                    <v1:importRequest>
                        <odm>
                            <ODM>
                                <ClinicalData StudyOID=" ++
    quoted study_oid ++
    lit " MetaDataVersionOID=" ++
    quoted (lit "v1.0.0") ++
    lit ">
                                <UpsertOn NotStarted=" ++
    quoted (lit "true") ++
    lit " DataEntryStarted=" ++
    quoted (lit "true") ++
    lit " DataEntryComplete=" ++
    quoted (lit "true") ++
    lit "/>
                                " ++
    subject_xml ++
    lit "
                                </ClinicalData>
                            </ODM>
                        </odm>
                    </v1:importRequest>
                </soapenv:Body>
            </soapenv:Envelope>
            ".

(** The f-string that appends one [ItemData] element to [items]. *)
Definition item_data (items item_prefix name value : pystr) : pystr :=
  items ++ lit "<ItemData ItemOID=" ++ quoted (item_prefix ++ name) ++
  lit " Value=" ++ quoted value ++ lit "/>" ++ nl.

Section Orchestrator.

Variable lib : PyLib.
Variable remote : Remote.
Variable environ : gmap string pystr.
(** The module-level names of [libre_clinica_request_github]: the script
    entry point binds them, an importing caller does not. *)
Variable globals : gmap string pystr.

(** Reading a module-level name. *)
Definition global_var (name : string) : pyresult pystr :=
  match globals !! name with
  | Some v => Ok v
  | None => Raise (NameError name)
  end.

(** [unidecode(s)]: a code point below 128 is kept, any other is
    replaced by its entry in the transliteration table. *)
Definition unidecode (s : pystr) : pystr :=
  concat (map (fun char => if (char <? 128)%N then [char]
                           else unidecode_table lib char) s).

(** [str(v)], as an f-string formats a cell. *)
Definition py_str (v : pyval) : pystr :=
  match v with
  | PNone => lit "None"
  | PStr s => s
  | PInt z => str_of_Z z
  | PFloat f => str_of_float lib f
  end.

Definition ascii_range : N := 127.

(** The body of [for name in df_sparql.columns]: the state is the row,
    which the loop may update, and [items]. *)
Definition add_item (st : Row * pystr) (name : pystr)
  : pyresult (Row * pystr) :=
  let row := fst st in
  let items := snd st in
  let? identifier_colname := global_var "identifier_colname" in
  if negb (pystr_eqb name identifier_colname) then
    let? v := row_item row name in
    if pd_notna v then
      let row :=
        match v with
        | PStr s =>
            if existsb (fun char => (ascii_range <? char)%N) s
            then row_set row name (PStr (unidecode s))
            else row
        | _ => row
        end in
      let? item_prefix := global_var "item_prefix" in
      let? v := row_item row name in
      Ok (row, item_data items item_prefix name (py_str v))
    else Ok (row, items)
  else Ok (row, items).

(** Lines 312 to 327: the response of the data service is classified. *)
Definition interpret_response (ss_label : pyval) (response_text : pystr)
    (failed_subjects : list Failure) : M (list Failure) :=
  let found := find_all lib response_text (lit "result") in
  let otherwise :=
    let errors := find_all lib response_text (lit "error") in
    match errors with
    | e0 :: _ =>
        let* _ := logger WARNING (MsgNonSuccess (Some e0)) in
        let failed_subjects :=
          failed_subjects ++ [{| failed_subject := ss_label; failed_error := e0 |}] in
        let* _ := logger INFO (MsgFailedSubject
                     {| failed_subject := ss_label; failed_error := e0 |}) in
        ret failed_subjects
    | [] =>
        let* _ := logger ERROR (MsgNoResultOrError response_text) in
        sys_exit 1
    end in
  match found with
  | r0 :: _ =>
      if str_contains (lit "Success") r0 then
        let* _ := logger INFO MsgSucceeded in
        let* _ := logger INFO (MsgResultText r0) in
        ret failed_subjects
      else otherwise
  | [] => otherwise
  end.

(** Lines 213 to 310: one record is resolved, scheduled, rendered and
    posted; the result is its label and the text of the response. *)
Definition submit_subject (config : LCConfig) (columns : list pystr)
    (header : Header) (subject_iteration : nat) (row : Row)
  : M (pyval * pystr) :=
  let* _ := logger INFO (MsgIteration subject_iteration) in
  let* identifier_colname := lift (global_var "identifier_colname") in
  let* ss_label := lift (row_item row identifier_colname) in
  let* _ := logger INFO (MsgAdding ss_label) in
  let* study_identifier := lift (global_var "study_identifier") in
  let* gender_colname := lift (global_var "gender_colname") in
  let* ss_gender := lift (row_item row gender_colname) in
  let* ss_oid :=
    get_lc_ss_oid remote (lc_endpoint config) (lc_user config)
                  (lc_password config) study_identifier ss_label ss_gender
                  false in
  let* _ := logger INFO (MsgGotOid ss_oid) in
  let* study_identifier := lift (global_var "study_identifier") in
  let* event_oid := lift (global_var "event_oid") in
  let event := {| studySubjectRef := ss_label;
                  event_studyRef := study_identifier;
                  eventDefinitionOID := event_oid;
                  startDate := lit "2000-01-01";
                  location := lit "NL" |} in
  let client := lc_endpoint config ++ lit "event/v1/eventWsdl.wsdl" in
  let* r := perform (Schedule client header event)
                    (fun t => service_schedule remote t client header event) in
  let* _ := logger INFO (MsgScheduleCode (result r)) in
  let* _ := if pystr_eqb (result r) (lit "Fail")
            then logger WARNING (MsgNonSuccess (error r))
            else ret tt in
  let* st := lift (foldM add_item (row, []) columns) in
  let items := snd st in
  let* event_oid := lift (global_var "event_oid") in
  let* form_oid := lift (global_var "form_oid") in
  let* item_group_oid := lift (global_var "item_group_oid") in
  let subject_xml := subject_xml ss_oid event_oid form_oid item_group_oid items in
  let* _ := logger INFO (MsgStartingUpload ss_label) in
  let* study_oid := lift (global_var "study_oid") in
  let submit_data :=
    submit_data (lc_user config) (lc_password config) study_oid subject_xml in
  let url := lc_endpoint config ++ lit "data/v1/dataWsdl.wsdl" in
  let* r := perform (DataPost url submit_data)
                    (fun t => data_post remote t url submit_data) in
  let* _ := logger INFO (MsgUploadStatus (status_code r)) in
  ret (ss_label, text r).

(** The body of [for _, row in df_sparql.iterrows()]. *)
Definition upload_subject (config : LCConfig) (columns : list pystr)
    (header : Header) (subject_iteration : nat) (row : Row)
    (failed_subjects : list Failure) : M (list Failure) :=
  let* posted := submit_subject config columns header subject_iteration row in
  interpret_response (fst posted) (snd posted) failed_subjects.

(** The loop over the rows, with [subject_iteration] and
    [failed_subjects] as its state. *)
Fixpoint iterrows_loop (config : LCConfig) (columns : list pystr)
    (header : Header) (rows : list Row) (subject_iteration : nat)
    (failed_subjects : list Failure) : M (list Failure) :=
  match rows with
  | [] => ret failed_subjects
  | row :: rows' =>
      let* failed_subjects :=
        upload_subject config columns header subject_iteration row
                       failed_subjects in
      iterrows_loop config columns header rows' (S subject_iteration)
                    failed_subjects
  end.

(** [upload_to_lc(config)] *)
Definition upload_to_lc (config : LCConfig) : M unit :=
  let* _ := if negb (perform_query config)
            then let* _ := logger CRITICAL MsgGateDisabled in sys_exit 0
            else ret tt in
  let* _ := logger INFO (MsgRetrieving (sparql_endpoint config)) in
  let* query := lift (global_var "query") in
  let* df_sparql := get_sparql_dataframe lib remote environ query true in
  let* _ := if (df_len df_sparql =? 0)%nat
            then let* _ := logger ERROR MsgNoData in sys_exit 1
            else ret tt in
  let* _ := logger INFO (MsgReceivedRows (df_len df_sparql)) in
  let df_sparql := df_rename df_sparql (alternative_item_oids config) in
  let* _ := logger INFO (MsgHaveColumns (columns_of df_sparql)) in
  let header := {| username := lc_user config; password := lc_password config |} in
  let* failed_subjects :=
    iterrows_loop config (columns_of df_sparql) header
                  (df_iterrows df_sparql) 1 [] in
  let* _ := match failed_subjects with
            | [] => ret tt
            | _ :: _ => logger WARNING (MsgFailedSubjects failed_subjects)
            end in
  let* _ := logger INFO (MsgTotalExpected (df_len df_sparql)) in
  logger INFO (MsgNumFailed (length failed_subjects)).

End Orchestrator.

(** ** The rest of the two modules: [query_from_file], [LCConfig] and the
    script entry point *)

(** [s.replace(old, new)] for one-character strings [old] and [new]. *)
Definition replace_char (old new : N) (s : pystr) : pystr :=
  map (fun char => if (char =? old)%N then new else char) s.

Section QueryFile.

Variable lib : PyLib.
Variable remote : Remote.
Variable environ : gmap string pystr.
(** [open(file_name, "r").read()]: the text of the file, or the exception
    of a file that cannot be read. *)
Variable read_file : pystr -> pyresult pystr.

(** [QueryEngine.query_from_file(file_name)] *)
Definition query_from_file (file_name : pystr) : M DataFrame :=
  let* content := lift (read_file file_name) in
  let query := replace_char 10 32 content in
  get_sparql_dataframe lib remote environ query true.

End QueryFile.

(** The constructor of [LCConfig]: the validation of the base class, then
    [__init__]. A string field refuses [None], and the field annotated
    [None] refuses anything else; the validation error is a [ValueError].
    [__init__] then replaces the [None] of [alternative_item_oids] by the
    empty dictionary. An argument is [None] or a value of the right type of
    the field. *)
Definition LCConfig_init
    (sparql_endpoint query lc_endpoint lc_user lc_password study_oid
       study_identifier event_oid form_oid item_group_oid identifier_colname
       gender_colname item_prefix : option pystr)
    (alternative_item_oids : option (gmap pystr pystr))
    (perform_query : bool) : pyresult LCConfig :=
  match sparql_endpoint, query, lc_endpoint, lc_user, lc_password, study_oid,
        study_identifier, event_oid, form_oid, item_group_oid,
        identifier_colname, gender_colname, item_prefix,
        alternative_item_oids with
  | Some sparql_endpoint, Some query, Some lc_endpoint, Some lc_user,
    Some lc_password, Some study_oid, Some study_identifier, Some event_oid,
    Some form_oid, Some item_group_oid, Some identifier_colname,
    Some gender_colname, Some item_prefix, None =>
      Ok {| sparql_endpoint := sparql_endpoint;
            query := query;
            lc_endpoint := lc_endpoint;
            lc_user := lc_user;
            lc_password := lc_password;
            study_oid := study_oid;
            study_identifier := study_identifier;
            event_oid := event_oid;
            form_oid := form_oid;
            item_group_oid := item_group_oid;
            identifier_colname := identifier_colname;
            gender_colname := gender_colname;
            item_prefix := item_prefix;
            alternative_item_oids := ∅;
            perform_query := perform_query |}
  | _, _, _, _, _, _, _, _, _, _, _, _, _, _ => Raise ValueError
  end.

Section Script.

Variable lib : PyLib.
Variable remote : Remote.
Variable environ : gmap string pystr.
(** The upload configuration as [yaml.safe_load] returns it: sections of
    string options. *)
Variable upload_config : gmap string (gmap string pystr).

(** [os.environ[name]] *)
Definition os_environ (name : string) : pyresult pystr :=
  match environ !! name with
  | Some v => Ok v
  | None => Raise (KeyError (lit name))
  end.

(** [upload_config[section][option]] *)
Definition config_item (section option : string) : pyresult pystr :=
  match upload_config !! section with
  | None => Raise (KeyError (lit section))
  | Some options =>
      match options !! option with
      | Some v => Ok v
      | None => Raise (KeyError (lit option))
      end
  end.

(** The module-level names the script binds and [upload_to_lc] reads. *)
Definition module_globals
    (study_oid study_identifier event_oid form_oid item_group_oid
       identifier_colname gender_colname item_prefix query : pystr)
  : gmap string pystr :=
  list_to_map
    [("study_oid", study_oid); ("study_identifier", study_identifier);
     ("event_oid", event_oid); ("form_oid", form_oid);
     ("item_group_oid", item_group_oid);
     ("identifier_colname", identifier_colname);
     ("gender_colname", gender_colname); ("item_prefix", item_prefix);
     ("query", query)]%string.

(** The script between its two [print]s, from the environment variables
    to the return of [upload_to_lc], with the configuration file loaded. *)
Definition script_body : M unit :=
  let LC_ENDPOINT := environ !! "LC_ENDPOINT"%string in
  let LC_USER := environ !! "LC_USER"%string in
  let LC_PASSWORD := environ !! "LC_PASSWORD"%string in
  let* SPARQL_QUERY_ENDPOINT := lift (os_environ "SPARQL_QUERY_ENDPOINT") in
  let* study_oid := lift (config_item "generic_list" "study_oid") in
  let* study_identifier := lift (config_item "generic_list" "study_identifier") in
  let* event_oid := lift (config_item "generic_list" "event_oid") in
  let* form_oid := lift (config_item "generic_list" "form_oid") in
  let* item_group_oid := lift (config_item "generic_list" "item_group_oid") in
  let* identifier_colname :=
    lift (config_item "generic_list" "identifier_colname") in
  let* gender_colname := lift (config_item "generic_list" "gender_colname") in
  let* item_prefix := lift (config_item "generic_list" "item_prefix") in
  let* query := lift (config_item "generic_list" "query") in
  let* libre_clinica_config :=
    lift (LCConfig_init (Some SPARQL_QUERY_ENDPOINT) (Some query) LC_ENDPOINT
            LC_USER LC_PASSWORD (Some study_oid) (Some study_identifier)
            (Some event_oid) (Some form_oid) (Some item_group_oid)
            (Some identifier_colname) (Some gender_colname) (Some item_prefix)
            None true) in
  upload_to_lc lib remote environ
    (module_globals study_oid study_identifier event_oid form_oid
       item_group_oid identifier_colname gender_colname item_prefix query)
    libre_clinica_config.

(** The script: what it prints, its outcome and the history. *)
Definition script_main (t : Trace) : list pystr * (pyresult unit * Trace) :=
  let run := script_body t in
  (lit "Starting sync!" ::
     match fst run with
     | Ok _ => [lit "Finished sync!"]
     | Raise _ => []
     end,
   run).

End Script.

(** ** A reference world for concrete runs *)

Module Reference.

(** Decimal numerals with an optional sign, for [int] and [float]. *)
Definition digit_of (c : N) : option Z :=
  if ((48 <=? c) && (c <=? 57))%N then Some (Z.of_N c - 48) else None.

Fixpoint digits_value (acc : Z) (s : pystr) : option Z :=
  match s with
  | [] => Some acc
  | c :: s' =>
      match digit_of c with
      | Some d => digits_value (10 * acc + d) s'
      | None => None
      end
  end.

Definition parse_int (s : pystr) : option Z :=
  match s with
  | [] => None
  | 45%N :: (_ :: _) as s' => option_map Z.opp (digits_value 0 s')
  | 43%N :: (_ :: _) as s' => digits_value 0 s'
  | 45%N :: [] | 43%N :: [] => None
  | _ => digits_value 0 s
  end.

(** The binary64 float nearest to an integer. *)
Definition float_of_Z (z : Z) : option spec_float :=
  match binary_normalize 53 1024 z 0 false with
  | S754_infinity _ => None
  | f => Some f
  end.

Definition parse_float (s : pystr) : option spec_float :=
  match parse_int s with
  | Some z => float_of_Z z
  | None => None
  end.

Definition show_float (f : spec_float) : pystr :=
  match float_trunc f with
  | Ok z => str_of_Z z ++ lit ".0"
  | Raise _ => lit "nan"
  end.

(** A few entries of the transliteration table. *)
Definition translit (c : N) : pystr :=
  if (c =? 233)%N then lit "e"
  else if (c =? 252)%N then lit "u"
  else if (c =? 223)%N then lit "ss"
  else [].

(** The texts of the elements [<tag>text</tag>] of a flat document. *)
Fixpoint text_until_lt (s : pystr) : pystr :=
  match s with
  | [] => []
  | c :: s' => if (c =? 60)%N then [] else c :: text_until_lt s'
  end.

Fixpoint scan_tag (opening : pystr) (doc : pystr) : list pystr :=
  match doc with
  | [] => []
  | _ :: doc' =>
      if starts_with opening doc
      then text_until_lt (drop (length opening) doc) :: scan_tag opening doc'
      else scan_tag opening doc'
  end.

Definition soup_find_all (doc tag : pystr) : list pystr :=
  scan_tag (lit "<" ++ tag ++ lit ">") doc.

Definition lib : PyLib :=
  {| int_of_str := parse_int;
     float_of_str := parse_float;
     float_of_int := float_of_Z;
     str_of_float := show_float;
     unidecode_table := translit;
     find_all := soup_find_all |}.

Definition ok_ret : SoapRet :=
  {| result := lit "Success"; error := None; raw_elements := [] |}.

Definition fail_ret (msg : string) : SoapRet :=
  {| result := lit "Fail"; error := Some (lit msg); raw_elements := [] |}.

Definition found_ret (oid : string) : SoapRet :=
  {| result := lit "Success"; error := None; raw_elements := [lit oid] |}.

(** The globals as the script entry point binds them. *)
Definition script_globals : gmap string pystr :=
  list_to_map
    [("study_oid", lit "S_1"); ("study_identifier", lit "STUDY");
     ("event_oid", lit "SE_1"); ("form_oid", lit "F_1");
     ("item_group_oid", lit "IG_1"); ("identifier_colname", lit "id");
     ("gender_colname", lit "gender"); ("item_prefix", lit "I_");
     ("query", lit "SELECT")]%string.

Definition config : LCConfig :=
  {| sparql_endpoint := lit "http://fair/sparql";
     query := lit "SELECT";
     lc_endpoint := lit "http://lc/ws/";
     lc_user := lit "user";
     lc_password := lit "hash";
     study_oid := lit "S_1";
     study_identifier := lit "STUDY";
     event_oid := lit "SE_1";
     form_oid := lit "F_1";
     item_group_oid := lit "IG_1";
     identifier_colname := lit "id";
     gender_colname := lit "gender";
     item_prefix := lit "I_";
     alternative_item_oids := ∅;
     perform_query := true |}.

Definition literal (v : string) (datatype : option pystr) : Binding :=
  {| b_value := Some (lit v); b_type := Some (lit "literal");
     b_datatype := datatype |}.

Definition uri (v : string) : Binding :=
  {| b_value := Some (lit v); b_type := Some (lit "uri"); b_datatype := None |}.

(** A result row binding [id], [gender] and [name]. *)
Definition patient (id gender name : string) : gmap pystr Binding :=
  list_to_map
    [(lit "id", literal id (Some xsd_string));
     (lit "gender", literal gender (Some xsd_integer));
     (lit "name", literal name None)].

Definition three_patients : SparqlResults :=
  {| head_vars := [lit "id"; lit "gender"; lit "name"];
     bindings := [patient "P1" "1" "Ann"; patient "P2" "2" "Bea";
                  patient "P3" "x" "Cy"] |}.

Definition no_patients : SparqlResults :=
  {| head_vars := [lit "id"; lit "gender"; lit "name"];
     bindings := [] |}.

(** The label of the submission in progress: the last ["Starting upload
    for"] record of the history. *)
Fixpoint uploading (t : Trace) (current : pyval) : pyval :=
  match t with
  | [] => current
  | Log _ (MsgStartingUpload l) :: t' => uploading t' l
  | _ :: t' => uploading t' current
  end.

(** A destination in which [P1] and [P3] exist, [P2] does not and cannot
    be created, and a submission without a subject key is refused. *)
Definition clinic (answer : SparqlResults) : Remote :=
  {| sparql_endpoint_post := fun _ _ _ _ =>
       Ok {| sparql_status := 200; sparql_json := Ok answer |};
     service_isStudySubject := fun _ _ _ s =>
       if bool_decide (label s = PStr (lit "P1")) then Ok (found_ret "SS_P1")
       else if bool_decide (label s = PStr (lit "P3")) then Ok (found_ret "SS_P3")
       else Ok (fail_ret "unknown subject");
     service_create := fun _ _ _ _ => Ok (fail_ret "not allowed");
     service_schedule := fun _ _ _ _ => Ok ok_ret;
     data_post := fun t _ _ =>
       if bool_decide (uploading t PNone = PStr (lit "P2"))
       then Ok {| status_code := 200;
                  text := lit "<result>Fail</result><error>no subject</error>" |}
       else Ok {| status_code := 200;
                  text := lit "<result>Success</result>" |};
     today := fun _ => lit "2024-05-01" |}.


Definition created (t : Trace) : bool :=
  existsb (fun e => match e with Call (Create _ _ _) => true | _ => false end) t.

(** A destination that enrolls every subject it is asked to create: a
    label is found once a create call is in the history. *)
Definition enrolling : Remote :=
  {| sparql_endpoint_post := fun _ _ _ _ =>
       Ok {| sparql_status := 200; sparql_json := Ok no_patients |};
     service_isStudySubject := fun t _ _ _ =>
       if created t then Ok (found_ret "SS_NEW")
       else Ok (fail_ret "unknown subject");
     service_create := fun _ _ _ _ => Ok ok_ret;
     service_schedule := fun _ _ _ _ => Ok ok_ret;
     data_post := fun _ _ _ =>
       Ok {| status_code := 200; text := lit "<result>Success</result>" |};
     today := fun _ => lit "2024-05-01" |}.

(** The frame of the three patients and its rows. *)
Definition frame : DataFrame :=
  match dataframe_of_results lib three_patients with
  | Ok df => df
  | Raise _ => pd_DataFrame [] []
  end.

Definition rows : list Row := df_iterrows frame.

Definition header : Header := {| username := lit "user"; password := lit "hash" |}.

End Reference.

(** * Properties *)

(** ** Running a computation step by step *)

Lemma bind_Ok {A B} (m : M A) (k : A -> M B) t a t' :
  m t = (Ok a, t') -> bind m k t = k a t'.
Proof. intros H. unfold bind. now rewrite H. Qed.

Lemma bind_Raise {A B} (m : M A) (k : A -> M B) t e t' :
  m t = (Raise e, t') -> bind m k t = (Raise e, t').
Proof. intros H. unfold bind. now rewrite H. Qed.

Lemma run_logger {B} lvl msg (k : unit -> M B) t :
  bind (logger lvl msg) k t = k tt (t ++ [Log lvl msg]).
Proof. reflexivity. Qed.

Lemma run_perform {A B} c (answer : Trace -> pyresult A) (k : A -> M B) t :
  bind (perform c answer) k t =
  match answer t with
  | Ok a => k a (t ++ [Call c])
  | Raise e => (Raise e, t ++ [Call c])
  end.
Proof. unfold bind, perform. now destruct (answer t). Qed.

Lemma run_lift {A B} (r : pyresult A) (k : A -> M B) t :
  bind (lift r) k t =
  match r with
  | Ok a => k a t
  | Raise e => (Raise e, t)
  end.
Proof. unfold bind, lift. now destruct r. Qed.

Lemma run_observe {A B} (f : Trace -> A) (k : A -> M B) t :
  bind (observe f) k t = k (f t) t.
Proof. reflexivity. Qed.

Lemma run_ret {A B} (a : A) (k : A -> M B) t : bind (ret a) k t = k a t.
Proof. reflexivity. Qed.

Lemma run_raise {A B} e (k : A -> M B) t : bind (raise e) k t = (Raise e, t).
Proof. reflexivity. Qed.

Lemma bind_assoc {A B C} (m : M A) (f : A -> M B) (g : B -> M C) t :
  bind (bind m f) g t = bind m (fun a => bind (f a) g) t.
Proof. unfold bind. destruct (m t) as [[a|e] t']; reflexivity. Qed.

Lemma pystr_eqb_true a b : a = b -> pystr_eqb a b = true.
Proof. intros ->. unfold pystr_eqb. now apply bool_decide_eq_true. Qed.

Lemma pystr_eqb_false a b : a <> b -> pystr_eqb a b = false.
Proof. intros H. unfold pystr_eqb. now apply bool_decide_eq_false. Qed.

(** The steps that need no fact about the world. *)
Ltac py_run :=
  cbv beta iota;
  repeat (first [ rewrite run_logger | rewrite run_lift | rewrite run_ret
                | rewrite run_observe ];
          cbv beta iota).

(** The history in normal form: one [++] with the new events listed. *)
Ltac trace_norm := rewrite <- ?app_assoc; cbn [app].

(** ** The events of a history *)

Definition is_check (e : Event) : bool :=
  match e with Call (IsStudySubject _ _ _) => true | _ => false end.

Definition is_create (e : Event) : bool :=
  match e with Call (Create _ _ _) => true | _ => false end.

Definition is_schedule (e : Event) : bool :=
  match e with Call (Schedule _ _ _) => true | _ => false end.

Definition is_data_post (e : Event) : bool :=
  match e with Call (DataPost _ _) => true | _ => false end.

Definition is_call (e : Event) : bool :=
  match e with Call _ => true | Log _ _ => false end.

(** A call to the destination system, as opposed to the query. *)
Definition is_destination_call (e : Event) : bool :=
  match e with
  | Call (SparqlPost _ _ _) | Log _ _ => false
  | Call _ => true
  end.

Definition count (p : Event -> bool) (t : Trace) : nat :=
  length (List.filter p t).

(** ** The identity resolver *)

Section ResolverProperties.

Variable remote : Remote.
Variables lc_endpoint lc_user lc_password study_identifier : pystr.
Variable ss_label : pyval.

(** The service description the SOAP client is built from. *)
Definition subject_wsdl : pystr :=
  lc_endpoint ++ lit "study/v1/studySubjectWsdl.wsdl".

Definition credentials : Header :=
  {| username := lc_user; password := lc_password |}.

(** The request of the existence check. *)
Definition check_request : Subject :=
  {| label := ss_label;
     enrollmentDate := lit "1900-01-01";
     subject_gender := None;
     studyRef := study_identifier |}.

(** The request that creates the subject on [date] with gender [g]. *)
Definition create_request (date : pystr) (g : pyval) : Subject :=
  {| label := ss_label;
     enrollmentDate := date;
     subject_gender := Some g;
     studyRef := study_identifier |}.

Definition check_call : Event :=
  Call (IsStudySubject subject_wsdl credentials check_request).

Definition create_call (date : pystr) (g : pyval) : Event :=
  Call (Create subject_wsdl credentials (create_request date g)).

(** One activation that finds the subject. *)
Lemma resolver_found n ss_gender rerun t r oid :
  service_isStudySubject remote (t ++ [Log INFO (MsgTryingOid ss_label)])
    subject_wsdl credentials check_request = Ok r ->
  result r = lit "Success" ->
  last (raw_elements r) = Some oid ->
  get_lc_ss_oid_rec remote (S n) lc_endpoint lc_user lc_password
    study_identifier ss_label ss_gender rerun t =
  (Ok oid, t ++ [Log INFO (MsgTryingOid ss_label); check_call;
                 Log INFO (MsgFoundOid oid)]).
Proof.
  intros Hcheck Hres Hoid. cbn [get_lc_ss_oid_rec].
  rewrite run_logger. unfold client_isStudySubject. rewrite run_perform.
  fold subject_wsdl credentials check_request. rewrite Hcheck.
  rewrite (pystr_eqb_true _ _ Hres). unfold pop_text. rewrite Hoid.
  rewrite run_ret, run_logger. unfold ret. now trace_norm.
Qed.


(** (C3) An existing label is resolved by one check and no create: when
    the existence check answers ["Success"] and carries the OID,
    [get_lc_ss_oid] returns that OID, whatever the gender and the rerun
    flag are, and the only remote call it makes is the check. *)
Theorem C3_existing_label_one_check ss_gender rerun t r oid :
  service_isStudySubject remote (t ++ [Log INFO (MsgTryingOid ss_label)])
    subject_wsdl credentials check_request = Ok r ->
  result r = lit "Success" ->
  last (raw_elements r) = Some oid ->
  let new := [Log INFO (MsgTryingOid ss_label); check_call;
              Log INFO (MsgFoundOid oid)] in
  get_lc_ss_oid remote lc_endpoint lc_user lc_password study_identifier
    ss_label ss_gender rerun t = (Ok oid, t ++ new)
  /\ count is_check new = 1%nat
  /\ count is_create new = 0%nat
  /\ count is_call new = 1%nat.
Proof.
  intros Hcheck Hres Hoid new. split; [|now cbn].
  unfold get_lc_ss_oid.
  destruct rerun; now apply resolver_found with (r := r).
Qed.



End ResolverProperties.

(** ** The result materializer *)

(** A cell as the query result delivers it: a string or [None]. *)
Definition is_raw (v : pyval) : bool :=
  match v with
  | PNone | PStr _ => true
  | _ => false
  end.

(** The values of column [col] over the rows of the result, before any
    typing. *)
Definition raw_column (rows : list (gmap pystr Binding)) (col : pystr)
  : list pyval :=
  map (fun row => binding_value (row_get row col)) rows.

(** What [astype] makes of a cell. *)
Definition typed_cell (v : pyval) : pyval := if pd_notna v then v else np_NaN.

Lemma df_get_cons c cols n col :
  df_get {| df_columns := c :: cols; df_len := n |} col =
  if bool_decide (fst c = col) then Ok (snd c)
  else df_get {| df_columns := cols; df_len := n |} col.
Proof.
  unfold df_get. cbn. destruct c as [name s]. cbn.
  case_decide; case_bool_decide; try done.
  destruct (list_find _ cols) as [[i [name' s']]|]; reflexivity.
Qed.

Lemma df_get_set_eq df col s :
  col ∈ columns_of df -> df_get (df_set df col s) col = Ok s.
Proof.
  destruct df as [cols n]. unfold columns_of, df_set. cbn.
  induction cols as [|c cols IH]; cbn; intros Hin.
  - now apply elem_of_nil in Hin.
  - rewrite df_get_cons. destruct (decide (c.1 = col)) as [Hc|Hc].
    + rewrite (bool_decide_eq_true_2 _ Hc). cbn.
      now rewrite bool_decide_eq_true_2.
    + rewrite (bool_decide_eq_false_2 _ Hc).
      rewrite (bool_decide_eq_false_2 _ Hc).
      apply IH. apply elem_of_cons in Hin as [Hin|Hin]; [congruence|done].
Qed.

Lemma df_get_set_ne df col s c :
  c <> col -> df_get (df_set df col s) c = df_get df c.
Proof.
  intros Hne. destruct df as [cols n]. unfold df_set. cbn.
  induction cols as [|x cols IH]; cbn; [done|].
  rewrite !df_get_cons. destruct (decide (x.1 = col)) as [Hx|Hx].
  - rewrite (bool_decide_eq_true_2 _ Hx). cbn.
    rewrite (bool_decide_eq_false_2 (col = c)) by congruence.
    rewrite (bool_decide_eq_false_2 (x.1 = c)) by congruence. apply IH.
  - rewrite (bool_decide_eq_false_2 _ Hx).
    case_bool_decide; [done|apply IH].
Qed.

Lemma columns_of_set df col s : columns_of (df_set df col s) = columns_of df.
Proof.
  destruct df as [cols n]. unfold columns_of, df_set. cbn.
  induction cols as [|x cols IH]; cbn; [done|].
  rewrite IH. case_bool_decide; cbn; congruence.
Qed.

Lemma df_get_elem df col s : df_get df col = Ok s -> col ∈ columns_of df.
Proof.
  destruct df as [cols n]. unfold columns_of. cbn.
  induction cols as [|x cols IH]; [done|].
  rewrite df_get_cons. cbn. case_bool_decide as Hx.
  - intros _. apply elem_of_cons. now left.
  - intros H. apply elem_of_cons. right. now apply IH.
Qed.

(** The fresh frame holds, under each variable, its raw column. *)
Lemma pd_DataFrame_columns (rows : list (gmap pystr Binding)) columns :
  df_columns
    (pd_DataFrame
       (map (fun row => map (fun col => binding_value (row_get row col)) columns)
            rows) columns) =
  map (fun col => (col, {| series_dtype := DObject;
                           series_values := raw_column rows col |})) columns.
Proof.
  unfold pd_DataFrame. cbn. apply list_eq. intros j.
  rewrite list_lookup_imap, list_lookup_fmap.
  destruct (columns !! j) as [col|] eqn:Hj; cbn; [|done].
  do 3 f_equal. unfold raw_column. rewrite map_map.
  apply map_ext. intros row. now rewrite list_lookup_fmap, Hj.
Qed.

Lemma df_get_fresh (rows : list (gmap pystr Binding)) columns n col :
  col ∈ columns ->
  df_get {| df_columns :=
              map (fun col => (col, {| series_dtype := DObject;
                                       series_values := raw_column rows col |}))
                  columns;
            df_len := n |} col =
  Ok {| series_dtype := DObject; series_values := raw_column rows col |}.
Proof.
  induction columns as [|c columns IH]; intros Hin.
  - now apply elem_of_nil in Hin.
  - cbn [map]. rewrite df_get_cons. cbn. case_bool_decide as Hc; [now subst|].
    apply IH. apply elem_of_cons in Hin as [Hin|Hin]; [congruence|done].
Qed.

Lemma raw_column_is_raw rows col : forallb is_raw (raw_column rows col) = true.
Proof.
  unfold raw_column. induction rows as [|row rows IH]; cbn; [done|].
  rewrite IH. unfold binding_value. now destruct (b_value _).
Qed.

Lemma opt_is_true x v : opt_is x v = true -> x = Some v.
Proof. unfold opt_is. now intros H%bool_decide_eq_true. Qed.

Lemma opt_in_integer x :
  opt_in x integer_data_types = true -> x = Some xsd_int \/ x = Some xsd_integer.
Proof.
  destruct x as [v|]; [|done]. cbn. intros H%bool_decide_eq_true.
  unfold integer_data_types in H.
  apply elem_of_union in H as [H|H]; apply elem_of_singleton in H; subst; auto.
Qed.

Section MaterializerProperties.

Variable lib : PyLib.

(** What [convert(x, int)] makes of a raw cell. *)
Definition int_cell (v : pyval) : pyval :=
  match v with
  | PStr s =>
      match int_of_str lib s with
      | Some z => PInt z
      | None => np_NaN
      end
  | _ => np_NaN
  end.

(** What [convert(x, float)] makes of a raw cell. *)
Definition float_cell (v : pyval) : pyval :=
  match v with
  | PStr s =>
      match float_of_str lib s with
      | Some f => PFloat f
      | None => np_NaN
      end
  | _ => np_NaN
  end.

(** The column that the first-row binding [b] makes of the raw values
    [vs]. *)
Definition typed_series (b : Binding) (vs : list pyval) : Series :=
  let fresh := {| series_dtype := DObject; series_values := vs |} in
  if opt_is (b_type b) (lit "uri") then astype DCategory fresh
  else if opt_in (b_type b) literal_variable_types then
    if opt_in (b_datatype b) integer_data_types then
      astype DInt64 {| series_dtype := DObject; series_values := map int_cell vs |}
    else if opt_is (b_datatype b) xsd_double then
      astype DFloat64 {| series_dtype := DObject; series_values := map float_cell vs |}
    else if opt_is (b_datatype b) xsd_string then astype DCategory fresh
    else fresh
  else fresh.

Lemma convert_int_raw v :
  is_raw v = true -> convert v (py_int lib) = Ok (int_cell v).
Proof.
  destruct v as [|s|z|f]; try done. intros _. cbn.
  now destruct (int_of_str lib s).
Qed.

Lemma convert_float_raw v :
  is_raw v = true -> convert v (py_float lib) = Ok (float_cell v).
Proof.
  destruct v as [|s|z|f]; try done. intros _. cbn.
  now destruct (float_of_str lib s).
Qed.

Lemma mapM_total {A B} (f : A -> pyresult B) (g : A -> B) (p : A -> bool) xs :
  (forall x, p x = true -> f x = Ok (g x)) ->
  forallb p xs = true -> mapM f xs = Ok (map g xs).
Proof.
  intros Hf. induction xs as [|x xs IH]; cbn; [done|].
  intros [Hx Hxs]%andb_prop. rewrite (Hf x Hx). cbn. now rewrite (IH Hxs).
Qed.

Lemma retype_column_spec first_row df col vs :
  df_get df col = Ok {| series_dtype := DObject; series_values := vs |} ->
  forallb is_raw vs = true ->
  exists df',
    retype_column lib first_row df col = Ok df'
    /\ df_get df' col = Ok (typed_series (row_get first_row col) vs)
    /\ (forall c, c <> col -> df_get df' c = df_get df c)
    /\ columns_of df' = columns_of df
    /\ df_len df' = df_len df.
Proof.
  intros Hget Hraw. pose proof (df_get_elem _ _ _ Hget) as Hin.
  assert (Hset : forall s,
    df_get (df_set df col s) col = Ok s
    /\ (forall c, c <> col -> df_get (df_set df col s) c = df_get df c)
    /\ columns_of (df_set df col s) = columns_of df
    /\ df_len (df_set df col s) = df_len df).
  { intros s. split; [now apply df_get_set_eq|].
    split; [intros c Hc; now apply df_get_set_ne|].
    split; [apply columns_of_set|done]. }
  unfold retype_column, typed_series.
  set (b := row_get first_row col).
  destruct (opt_is (b_type b) (lit "uri")) eqn:Huri.
  { apply opt_is_true in Huri. rewrite Huri. cbn [opt_in].
    rewrite Hget. cbn [rbind].
    replace (bool_decide (lit "uri" ∈ literal_variable_types)) with false
      by (now vm_compute).
    eexists. split; [reflexivity|apply Hset]. }
  cbn [rbind].
  destruct (opt_in (b_type b) literal_variable_types) eqn:Hlit;
    [|exists df; now repeat split].
  destruct (opt_in (b_datatype b) integer_data_types) eqn:Hint.
  { rewrite Hget. cbn [rbind]. unfold series_apply. cbn [series_values].
    rewrite (mapM_total _ int_cell is_raw) by (auto using convert_int_raw).
    cbn [rbind series_dtype].
    apply opt_in_integer in Hint as [-> | ->];
      (replace (opt_is _ xsd_double) with false by (now vm_compute));
      (replace (opt_is _ xsd_string) with false by (now vm_compute));
      cbn [rbind]; (eexists; split; [reflexivity|]);
      destruct (Hset (astype DInt64 {| series_dtype := DObject;
                        series_values := map int_cell vs |}))
        as (H1 & H2 & H3 & H4); repeat split; done. }
  cbn [rbind].
  destruct (opt_is (b_datatype b) xsd_double) eqn:Hdbl.
  { rewrite Hget. cbn [rbind]. unfold series_apply. cbn [series_values].
    rewrite (mapM_total _ float_cell is_raw) by (auto using convert_float_raw).
    cbn [rbind series_dtype].
    apply opt_is_true in Hdbl. rewrite Hdbl.
    replace (opt_is _ xsd_string) with false by (now vm_compute).
    eexists; split; [reflexivity|]. apply Hset. }
  cbn [rbind].
  destruct (opt_is (b_datatype b) xsd_string) eqn:Hstr.
  { rewrite Hget. cbn [rbind]. eexists; split; [reflexivity|]. apply Hset. }
  exists df. now repeat split.
Qed.

Lemma retype_columns_spec first_row rows todo : forall df,
  NoDup todo ->
  (forall col, col ∈ todo ->
     df_get df col = Ok {| series_dtype := DObject;
                           series_values := raw_column rows col |}) ->
  exists df',
    foldM (retype_column lib first_row) df todo = Ok df'
    /\ (forall col, col ∈ todo ->
          df_get df' col =
          Ok (typed_series (row_get first_row col) (raw_column rows col)))
    /\ (forall c, c ∉ todo -> df_get df' c = df_get df c)
    /\ columns_of df' = columns_of df
    /\ df_len df' = df_len df.
Proof.
  induction todo as [|col todo IH]; intros df Hnd Hraw.
  - exists df. cbn. repeat split; try done. intros col H. now apply elem_of_nil in H.
  - apply NoDup_cons in Hnd as [Hcol Hnd].
    destruct (retype_column_spec first_row df col (raw_column rows col))
      as (df1 & Hrun & Hget & Hother & Hcols & Hlen).
    { apply Hraw, elem_of_cons. now left. }
    { apply raw_column_is_raw. }
    destruct (IH df1 Hnd) as (df2 & Hrun2 & Hget2 & Hother2 & Hcols2 & Hlen2).
    { intros c Hc. rewrite Hother by (intros ->; done).
      apply Hraw, elem_of_cons. now right. }
    exists df2. cbn [foldM]. rewrite Hrun. cbn [rbind].
    split; [done|]. split; [|split; [|split; congruence]].
    + intros c [-> | Hc]%elem_of_cons; [|now apply Hget2].
      now rewrite Hother2.
    + intros c Hc. apply not_elem_of_cons in Hc as [Hne Hc].
      now rewrite Hother2, Hother.
Qed.

(** The frame of a result with at least one row: under every variable,
    the raw column typed by the binding of the first row. *)
Lemma dataframe_of_results_spec r first_row rest :
  NoDup (head_vars r) ->
  bindings r = first_row :: rest ->
  exists df,
    dataframe_of_results lib r = Ok df
    /\ columns_of df = head_vars r
    /\ df_len df = length (bindings r)
    /\ forall col, col ∈ head_vars r ->
         df_get df col =
         Ok (typed_series (row_get first_row col) (raw_column (bindings r) col)).
Proof.
  intros Hnd Hb. unfold dataframe_of_results.
  set (out := map _ (bindings r)).
  set (fresh := {| df_columns :=
                     map (fun col => (col, {| series_dtype := DObject;
                                              series_values := raw_column (bindings r) col |}))
                         (head_vars r);
                   df_len := length (bindings r) |}).
  assert (Hfresh : pd_DataFrame out (head_vars r) = fresh).
  { unfold fresh. rewrite <- pd_DataFrame_columns. unfold pd_DataFrame, out.
    cbn. now rewrite length_map. }
  rewrite Hfresh, Hb.
  destruct (retype_columns_spec first_row (bindings r) (head_vars r) fresh Hnd)
    as (df & Hrun & Hget & _ & Hcols & Hlen).
  { intros col Hcol. now apply df_get_fresh. }
  exists df. rewrite <- Hb. split; [done|]. split; [|split; [done|]].
  - rewrite Hcols. unfold columns_of, fresh. cbn. rewrite map_map. cbn.
    apply map_id.
  - intros col Hcol. now apply Hget.
Qed.










End MaterializerProperties.

(** ** Substrings *)

(** [needle] occurs in [hay] as a contiguous substring. *)
Definition occurs_in (needle hay : pystr) : Prop :=
  exists pre post, hay = pre ++ needle ++ post.

Lemma starts_with_prefix needle : forall hay,
  starts_with needle hay = true -> exists post, hay = needle ++ post.
Proof.
  induction needle as [|a needle IH]; intros hay H.
  - now exists hay.
  - destruct hay as [|b hay]; [done|]. cbn in H.
    apply andb_prop in H as [Hab H]. apply N.eqb_eq in Hab as ->.
    destruct (IH hay H) as [post ->]. now exists post.
Qed.

Lemma str_contains_occurs needle hay :
  str_contains needle hay = true -> occurs_in needle hay.
Proof.
  induction hay as [|b hay IH]; cbn; intros H.
  - apply orb_prop in H as [H|H]; [|done].
    destruct (starts_with_prefix _ _ H) as [post ->]. now exists [], post.
  - apply orb_prop in H as [H|H].
    + destruct (starts_with_prefix _ _ H) as [post ->]. now exists [], post.
    + destruct (IH H) as (pre & post & ->). now exists (b :: pre), post.
Qed.

Lemma occurs_app_l needle a b : occurs_in needle a -> occurs_in needle (a ++ b).
Proof.
  intros (pre & post & ->). exists pre, (post ++ b). now rewrite <- !app_assoc.
Qed.

Lemma occurs_app_r needle a b : occurs_in needle b -> occurs_in needle (a ++ b).
Proof.
  intros (pre & post & ->). exists (a ++ pre), post. now rewrite <- !app_assoc.
Qed.

(** ** The upload orchestrator *)

(** The success test of the source: the first [<result>] element, if any,
    has ["Success"] in its text. *)
Definition success_marker (results : list pystr) : bool :=
  match results with
  | r0 :: _ => str_contains (lit "Success") r0
  | [] => false
  end.

(** The labels of the submissions a history records, in order. *)
Fixpoint upload_labels (t : Trace) : list pyval :=
  match t with
  | [] => []
  | Log _ (MsgStartingUpload l) :: t' => l :: upload_labels t'
  | _ :: t' => upload_labels t'
  end.

Section OrchestratorProperties.

#[local] Set Warnings "-clear-no-such-hyp".

Variable lib : PyLib.
Variable remote : Remote.
Variable environ : gmap string pystr.
Variable globals : gmap string pystr.

Lemma interpret_success ss_label response_text failed t :
  success_marker (find_all lib response_text (lit "result")) = true ->
  interpret_response lib ss_label response_text failed t =
  (Ok failed,
   t ++ [Log INFO MsgSucceeded;
         Log INFO (MsgResultText
                     (hd [] (find_all lib response_text (lit "result"))))]).
Proof.
  unfold interpret_response, success_marker.
  destruct (find_all lib response_text (lit "result")) as [|r0 rs]; [done|].
  intros ->. rewrite !run_logger. unfold ret. cbn [hd]. now trace_norm.
Qed.

Lemma interpret_error ss_label response_text failed t e0 es :
  success_marker (find_all lib response_text (lit "result")) = false ->
  find_all lib response_text (lit "error") = e0 :: es ->
  interpret_response lib ss_label response_text failed t =
  (Ok (failed ++ [{| failed_subject := ss_label; failed_error := e0 |}]),
   t ++ [Log WARNING (MsgNonSuccess (Some e0));
         Log INFO (MsgFailedSubject
                     {| failed_subject := ss_label; failed_error := e0 |})]).
Proof.
  unfold interpret_response, success_marker. intros Hs He.
  assert (Hrun : (let* _ := logger WARNING (MsgNonSuccess (Some e0)) in
                  let* _ := logger INFO (MsgFailedSubject
                              {| failed_subject := ss_label; failed_error := e0 |}) in
                  ret (failed ++ [{| failed_subject := ss_label;
                                     failed_error := e0 |}])) t =
                 (Ok (failed ++ [{| failed_subject := ss_label; failed_error := e0 |}]),
                  t ++ [Log WARNING (MsgNonSuccess (Some e0));
                        Log INFO (MsgFailedSubject
                                    {| failed_subject := ss_label;
                                       failed_error := e0 |})])).
  { rewrite !run_logger. unfold ret. now trace_norm. }
  rewrite He.
  destruct (find_all lib response_text (lit "result")) as [|r0 rs]; [exact Hrun|].
  rewrite Hs. exact Hrun.
Qed.

Lemma interpret_neither ss_label response_text failed t :
  success_marker (find_all lib response_text (lit "result")) = false ->
  find_all lib response_text (lit "error") = [] ->
  interpret_response lib ss_label response_text failed t =
  (Raise (SystemExit 1), t ++ [Log ERROR (MsgNoResultOrError response_text)]).
Proof.
  unfold interpret_response, success_marker. intros Hs He. rewrite He.
  destruct (find_all lib response_text (lit "result")) as [|r0 rs];
    [|rewrite Hs]; now rewrite run_logger.
Qed.

(** (C1, as the code has it) How the response to a submission decides the
    run. When the first [<result>] element of the body has ["Success"] in
    its text, the success is logged and the loop goes on to the next
    records with the failure log as it was. Otherwise, when the body has an
    [<error>] element, the label with the text of the first one is
    appended to the failure log and the loop goes on. Otherwise the run
    ends there with [SystemExit(1)], and no further record is touched. *)
Theorem C1_response_decides config columns header n row rows failed t
    ss_label response_text t1 :
  submit_subject lib remote globals config columns header n row t =
    (Ok (ss_label, response_text), t1) ->
  let results := find_all lib response_text (lit "result") in
  let errors := find_all lib response_text (lit "error") in
  let next := iterrows_loop lib remote globals config columns header rows (S n) in
  iterrows_loop lib remote globals config columns header (row :: rows) n failed t =
  if success_marker results then
    next failed (t1 ++ [Log INFO MsgSucceeded;
                        Log INFO (MsgResultText (hd [] results))])
  else
    match errors with
    | e0 :: _ =>
        let failure := {| failed_subject := ss_label; failed_error := e0 |} in
        next (failed ++ [failure])
             (t1 ++ [Log WARNING (MsgNonSuccess (Some e0));
                     Log INFO (MsgFailedSubject failure)])
    | [] =>
        (Raise (SystemExit 1),
         t1 ++ [Log ERROR (MsgNoResultOrError response_text)])
    end.
Proof.
  intros Hsubmit results errors next. cbn [iterrows_loop].
  unfold upload_subject. rewrite bind_assoc.
  rewrite (bind_Ok _ _ _ _ _ Hsubmit). cbn [fst snd].
  destruct (success_marker results) eqn:Hs.
  - now rewrite (bind_Ok _ _ _ _ _
                   (interpret_success ss_label response_text failed t1 Hs)).
  - destruct errors as [|e0 es] eqn:He.
    + now rewrite (bind_Raise _ _ _ _ _
                     (interpret_neither ss_label response_text failed t1 Hs He)).
    + now rewrite (bind_Ok _ _ _ _ _
                     (interpret_error ss_label response_text failed t1 e0 es Hs He)).
Qed.

(** (C2, as the code has it) The two early exits of [upload_to_lc]. With
    the gate [perform_query] off, the run ends with [SystemExit(0)] after
    the one log record, with no call made. With the gate on and a query
    answer of zero rows, it ends with [SystemExit(1)]: the only call made
    is the query itself, no call reaches the destination, and no record is
    processed. *)
Theorem C2_gate_and_empty_result config t :
  (perform_query config = false ->
   upload_to_lc lib remote environ globals config t =
   (Raise (SystemExit 0), t ++ [Log CRITICAL MsgGateDisabled]))
  /\ (perform_query config = true ->
      forall q r results,
        globals !! "query"%string = Some q ->
        let endpoint := environ !! "SPARQL_QUERY_ENDPOINT"%string in
        let auth := Some (environ !! "USER"%string, environ !! "USER_PWD"%string) in
        sparql_endpoint_post remote
          (t ++ [Log INFO (MsgRetrieving (sparql_endpoint config))])
          endpoint auth q = Ok r ->
        sparql_json r = Ok results ->
        bindings results = [] ->
        let new := [Log INFO (MsgRetrieving (sparql_endpoint config));
                    Call (SparqlPost endpoint auth q);
                    Log INFO (MsgStatusCode (sparql_status r));
                    Log ERROR MsgNoData] in
        upload_to_lc lib remote environ globals config t =
          (Raise (SystemExit 1), t ++ new)
        /\ count is_destination_call new = 0%nat
        /\ upload_labels new = []).
Proof.
  split.
  - intros Hgate. unfold upload_to_lc. rewrite Hgate. cbn [negb].
    rewrite bind_assoc, run_logger. reflexivity.
  - intros Hgate q r results Hq endpoint auth Hpost Hjson Hrows new.
    split; [|done].
    unfold upload_to_lc. rewrite Hgate. cbn [negb].
    rewrite run_ret, run_logger. unfold global_var. rewrite Hq, run_lift.
    unfold get_sparql_dataframe. rewrite bind_assoc, run_perform.
    fold endpoint auth. rewrite Hpost.
    rewrite bind_assoc, run_logger, Hjson. rewrite bind_assoc, run_lift.
    unfold dataframe_of_results. rewrite Hrows. cbn [map].
    rewrite run_lift. cbn [pd_DataFrame df_len length Nat.eqb].
    rewrite bind_assoc, run_logger. unfold sys_exit. rewrite run_raise.
    unfold new. now trace_norm.
Qed.

(** Two configurations that agree on every field but [query],
    [study_oid], [study_identifier], [event_oid], [form_oid],
    [item_group_oid], [identifier_colname], [gender_colname] and
    [item_prefix]. *)
Definition agree_on_used_fields (c1 c2 : LCConfig) : Prop :=
  sparql_endpoint c1 = sparql_endpoint c2
  /\ lc_endpoint c1 = lc_endpoint c2
  /\ lc_user c1 = lc_user c2
  /\ lc_password c1 = lc_password c2
  /\ alternative_item_oids c1 = alternative_item_oids c2
  /\ perform_query c1 = perform_query c2.

Lemma bind_ext {A B} (m : M A) (k k' : A -> M B) t :
  (forall a t', k a t' = k' a t') -> bind m k t = bind m k' t.
Proof. intros H. unfold bind. destruct (m t) as [[a|e] t']; auto. Qed.

Lemma submit_subject_config c1 c2 columns header n row t :
  lc_endpoint c1 = lc_endpoint c2 ->
  lc_user c1 = lc_user c2 ->
  lc_password c1 = lc_password c2 ->
  submit_subject lib remote globals c1 columns header n row t =
  submit_subject lib remote globals c2 columns header n row t.
Proof. intros H1 H2 H3. unfold submit_subject. now rewrite H1, H2, H3. Qed.

Lemma iterrows_loop_config c1 c2 columns header rows :
  lc_endpoint c1 = lc_endpoint c2 ->
  lc_user c1 = lc_user c2 ->
  lc_password c1 = lc_password c2 ->
  forall n failed t,
    iterrows_loop lib remote globals c1 columns header rows n failed t =
    iterrows_loop lib remote globals c2 columns header rows n failed t.
Proof.
  intros H1 H2 H3. induction rows as [|row rows IH]; intros n failed t; [done|].
  cbn [iterrows_loop]. unfold upload_subject. rewrite !bind_assoc.
  rewrite (bind_ext _ _
             (fun posted =>
                let* failed_subjects :=
                  interpret_response lib (fst posted) (snd posted) failed in
                iterrows_loop lib remote globals c2 columns header rows (S n)
                              failed_subjects)).
  - unfold bind. now rewrite (submit_subject_config c1 c2).
  - intros posted t'. apply bind_ext. intros failed' t''. apply IH.
Qed.

(** (C9) [upload_to_lc] does not read the fields [query], [study_oid],
    [study_identifier], [event_oid], [form_oid], [item_group_oid],
    [identifier_colname], [gender_colname] and [item_prefix] of its
    argument: two configurations that agree on the other fields give the
    same result and the same history, in every world and for every binding
    of the module-level names. The values come from the module-level
    names: with [query] unbound, a call that passes the gate ends with
    [NameError] before the query is sent; with [query] bound and
    [identifier_colname] unbound, a run over at least one row ends with
    [NameError] before the first record is resolved. *)
Theorem C9_config_ids_not_read c1 c2 t :
  agree_on_used_fields c1 c2 ->
  upload_to_lc lib remote environ globals c1 t =
  upload_to_lc lib remote environ globals c2 t
  /\ (globals !! "query"%string = None ->
      perform_query c1 = true ->
      upload_to_lc lib remote environ globals c1 t =
      (Raise (NameError "query"),
       t ++ [Log INFO (MsgRetrieving (sparql_endpoint c1))]))
  /\ (forall q df t1,
        globals !! "query"%string = Some q ->
        globals !! "identifier_colname"%string = None ->
        perform_query c1 = true ->
        get_sparql_dataframe lib remote environ q true
          (t ++ [Log INFO (MsgRetrieving (sparql_endpoint c1))]) = (Ok df, t1) ->
        df_len df <> 0%nat ->
        let renamed := df_rename df (alternative_item_oids c1) in
        upload_to_lc lib remote environ globals c1 t =
        (Raise (NameError "identifier_colname"),
         t1 ++ [Log INFO (MsgReceivedRows (df_len df));
                Log INFO (MsgHaveColumns (columns_of renamed));
                Log INFO (MsgIteration 1)])).
Proof.
  intros (Hsparql & Hendpoint & Huser & Hpassword & Halt & Hgate).
  split; [|split].
  - unfold upload_to_lc. rewrite Hsparql, Huser, Hpassword, Halt, Hgate.
    do 7 (apply bind_ext; intros ? ?).
    unfold bind. now rewrite (iterrows_loop_config c1 c2).
  - intros Hq Hon. unfold upload_to_lc. rewrite Hon. cbn [negb].
    rewrite run_ret, run_logger. unfold global_var. rewrite Hq.
    now rewrite run_lift.
  - intros q df t1 Hq Hid Hon Hdf Hlen renamed.
    unfold upload_to_lc. rewrite Hon. cbn [negb].
    rewrite run_ret, run_logger. unfold global_var at 1. rewrite Hq, run_lift.
    rewrite (bind_Ok _ _ _ _ _ Hdf).
    apply Nat.eqb_neq in Hlen. rewrite Hlen.
    rewrite run_ret, !run_logger. fold renamed.
    assert (Hrows : exists row rows, df_iterrows renamed = row :: rows).
    { unfold df_iterrows. unfold renamed at 2. cbn [df_rename df_len].
      apply Nat.eqb_neq in Hlen. destruct (df_len df); [done|].
      cbn [seq map]. eauto. }
    destruct Hrows as (row & rows & ->).
    cbn [iterrows_loop]. unfold upload_subject, submit_subject.
    rewrite !bind_assoc, run_logger. unfold global_var. rewrite Hid.
    rewrite bind_assoc, run_lift. now trace_norm.
Qed.

Lemma row_item_cons c (row : Row) name :
  row_item (c :: row) name =
  if bool_decide (fst c = name) then Ok (snd c) else row_item row name.
Proof.
  unfold row_item. cbn. destruct c as [k v]. cbn.
  case_decide; case_bool_decide; try done.
  destruct (list_find _ row) as [[i [k' v']]|]; reflexivity.
Qed.

Lemma row_item_set_eq (row : Row) name v w :
  row_item row name = Ok v -> row_item (row_set row name w) name = Ok w.
Proof.
  unfold row_set. induction row as [|c row IH]; [done|].
  rewrite row_item_cons. cbn [map]. rewrite row_item_cons.
  destruct (decide (c.1 = name)) as [Hc|Hc].
  - rewrite !(bool_decide_eq_true_2 _ Hc). cbn.
    now rewrite bool_decide_eq_true_2.
  - rewrite !(bool_decide_eq_false_2 _ Hc). apply IH.
Qed.

Lemma row_set_labels (row : Row) name w :
  map fst (row_set row name w) = map fst row.
Proof.
  unfold row_set. induction row as [|c row IH]; cbn; [done|].
  rewrite IH. case_bool_decide; cbn; congruence.
Qed.

Lemma row_item_labels (row : Row) name :
  name ∈ map fst row -> exists v, row_item row name = Ok v.
Proof.
  induction row as [|c row IH]; intros Hin.
  - now apply elem_of_nil in Hin.
  - rewrite row_item_cons. case_bool_decide as Hc; [eauto|].
    apply IH. cbn in Hin. apply elem_of_cons in Hin as [Hin|Hin]; [congruence|done].
Qed.


(** [unidecode] replaces exactly the characters above [ascii_range]. *)
Lemma unidecode_above_range s :
  unidecode lib s =
  concat (map (fun char => if (ascii_range <? char)%N
                           then unidecode_table lib char else [char]) s).
Proof.
  unfold unidecode, ascii_range. f_equal. apply map_ext. intros char.
  destruct (N.ltb_spec char 128), (N.ltb_spec 127 char); try reflexivity; lia.
Qed.

Lemma unidecode_ascii s :
  existsb (fun char => (ascii_range <? char)%N) s = false ->
  concat (map (fun char => if (ascii_range <? char)%N
                           then unidecode_table lib char else [char]) s) = s.
Proof.
  induction s as [|char s IH]; cbn; [done|].
  intros [Hc Hs]%orb_false_elim. rewrite Hc. cbn. now rewrite (IH Hs).
Qed.

Section ScriptGlobals.

(** The values the module-level names are bound to. *)
Variables the_study_oid the_study_identifier the_event_oid the_form_oid : pystr.
Variables the_item_group_oid the_identifier_colname the_gender_colname : pystr.
Variable the_item_prefix : pystr.

Hypothesis study_oid_bound :
  globals !! "study_oid"%string = Some the_study_oid.
Hypothesis study_identifier_bound :
  globals !! "study_identifier"%string = Some the_study_identifier.
Hypothesis event_oid_bound :
  globals !! "event_oid"%string = Some the_event_oid.
Hypothesis form_oid_bound :
  globals !! "form_oid"%string = Some the_form_oid.
Hypothesis item_group_oid_bound :
  globals !! "item_group_oid"%string = Some the_item_group_oid.
Hypothesis identifier_colname_bound :
  globals !! "identifier_colname"%string = Some the_identifier_colname.
Hypothesis gender_colname_bound :
  globals !! "gender_colname"%string = Some the_gender_colname.
Hypothesis item_prefix_bound :
  globals !! "item_prefix"%string = Some the_item_prefix.

(** A step of the item loop only appends to [items], and keeps the labels
    of the row. *)
Lemma add_item_appends (row : Row) (items name : pystr) :
  name ∈ map fst row ->
  exists (row' : Row) (more : pystr),
    add_item lib globals (row, items) name = Ok (row', items ++ more)
    /\ map fst row' = map fst row.
Proof.
  intros Hin. unfold add_item, global_var. cbn [fst snd].
  rewrite identifier_colname_bound. cbn [rbind].
  destruct (negb _); [|exists row, []; now rewrite app_nil_r].
  destruct (row_item_labels row name Hin) as [v Hv]. rewrite Hv. cbn [rbind].
  destruct (pd_notna v); [|exists row, []; now rewrite app_nil_r].
  rewrite item_prefix_bound. cbn [rbind].
  assert (Hkeep : exists more,
            (let? v0 := row_item row name in
             Ok (row, item_data items the_item_prefix name (py_str lib v0))) =
            Ok (row, items ++ more)).
  { rewrite Hv. cbn [rbind]. unfold item_data. eexists. reflexivity. }
  destruct Hkeep as [more Hkeep].
  destruct v as [|s|z|f]; try (exists row, more; split; [exact Hkeep|done]).
  destruct (existsb _ s); [|exists row, more; split; [exact Hkeep|done]].
  rewrite (row_item_set_eq _ _ _ _ Hv). cbn [rbind]. unfold item_data.
  eexists _, _. split; [reflexivity|apply row_set_labels].
Qed.

Lemma add_items_append columns : forall (row : Row) (items : pystr),
  (forall name, name ∈ columns -> name ∈ map fst row) ->
  exists (row' : Row) (more : pystr),
    foldM (add_item lib globals) (row, items) columns = Ok (row', items ++ more)
    /\ map fst row' = map fst row.
Proof.
  induction columns as [|name columns IH]; intros row items Hin.
  - exists row, []. cbn. now rewrite app_nil_r.
  - destruct (add_item_appends row items name) as (row1 & more1 & Hstep & Hl1).
    { apply Hin, elem_of_cons. now left. }
    destruct (IH row1 (items ++ more1)) as (row2 & more2 & Hrest & Hl2).
    { intros n Hn. rewrite Hl1. apply Hin, elem_of_cons. now right. }
    exists row2, (more1 ++ more2). cbn [foldM]. rewrite Hstep. cbn [rbind].
    split; [|congruence]. etransitivity; [exact Hrest|].
    now rewrite <- app_assoc.
Qed.


(** The request that schedules the event for a label. *)
Definition schedule_request (ss_label : pyval) : StudyEvent :=
  {| studySubjectRef := ss_label;
     event_studyRef := the_study_identifier;
     eventDefinitionOID := the_event_oid;
     startDate := lit "2000-01-01";
     location := lit "NL" |}.

Definition event_wsdl (config : LCConfig) : pystr :=
  lc_endpoint config ++ lit "event/v1/eventWsdl.wsdl".

Definition data_url (config : LCConfig) : pystr :=
  lc_endpoint config ++ lit "data/v1/dataWsdl.wsdl".

(** The payload posted for the subject key [ss_oid] and the items
    [items]. *)
Definition payload (config : LCConfig) (ss_oid items : pystr) : pystr :=
  submit_data (lc_user config) (lc_password config) the_study_oid
    (subject_xml ss_oid the_event_oid the_form_oid the_item_group_oid items).

(** What scheduling adds to the history, up to the start of the upload. *)
Definition scheduled (config : LCConfig) (header : Header) (ss_label : pyval)
    (ss_oid : pystr) (r : SoapRet) : Trace :=
  [Log INFO (MsgGotOid ss_oid);
   Call (Schedule (event_wsdl config) header (schedule_request ss_label));
   Log INFO (MsgScheduleCode (result r))] ++
  (if pystr_eqb (result r) (lit "Fail")
   then [Log WARNING (MsgNonSuccess (error r))] else []) ++
  [Log INFO (MsgStartingUpload ss_label)].

(** One record, from the resolution of its identity to the answer of the
    data service. *)
Lemma submit_subject_run config columns header n (row : Row) t
    ss_label ss_gender ss_oid t2 r (st : Row * pystr) :
  row_item row the_identifier_colname = Ok ss_label ->
  row_item row the_gender_colname = Ok ss_gender ->
  get_lc_ss_oid remote (lc_endpoint config) (lc_user config)
    (lc_password config) the_study_identifier ss_label ss_gender false
    (t ++ [Log INFO (MsgIteration n); Log INFO (MsgAdding ss_label)]) =
    (Ok ss_oid, t2) ->
  service_schedule remote (t2 ++ [Log INFO (MsgGotOid ss_oid)])
    (event_wsdl config) header (schedule_request ss_label) = Ok r ->
  foldM (add_item lib globals) (row, []) columns = Ok st ->
  let t3 := t2 ++ scheduled config header ss_label ss_oid r in
  let body := payload config ss_oid (snd st) in
  submit_subject lib remote globals config columns header n row t =
  match data_post remote t3 (data_url config) body with
  | Ok resp =>
      (Ok (ss_label, text resp),
       t3 ++ [Call (DataPost (data_url config) body);
              Log INFO (MsgUploadStatus (status_code resp))])
  | Raise e => (Raise e, t3 ++ [Call (DataPost (data_url config) body)])
  end.
Proof.
  intros Hlabel Hgender Hresolve Hschedule Hitems t3 body.
  unfold submit_subject, global_var.
  rewrite identifier_colname_bound, study_identifier_bound,
    gender_colname_bound, event_oid_bound, form_oid_bound,
    item_group_oid_bound, study_oid_bound.
  py_run. rewrite Hlabel. py_run. rewrite Hgender. py_run. trace_norm.
  rewrite (bind_Ok _ _ _ _ _ Hresolve). py_run. rewrite run_perform.
  fold (event_wsdl config) (schedule_request ss_label). rewrite Hschedule.
  py_run.
  assert (Hwarn : forall B (k : unit -> M B) t0,
    bind (if pystr_eqb (result r) (lit "Fail")
          then logger WARNING (MsgNonSuccess (error r)) else ret tt) k t0 =
    k tt (t0 ++ (if pystr_eqb (result r) (lit "Fail")
                 then [Log WARNING (MsgNonSuccess (error r))] else []))).
  { intros B k t0. destruct (pystr_eqb _ _);
      [apply run_logger|now rewrite run_ret, app_nil_r]. }
  rewrite Hwarn, Hitems. py_run. rewrite run_perform.
  fold (data_url config) (payload config ss_oid (snd st)). fold body.
  assert (Ht3 : ((((t2 ++ [Log INFO (MsgGotOid ss_oid)]) ++
                   [Call (Schedule (event_wsdl config) header
                                   (schedule_request ss_label))]) ++
                  [Log INFO (MsgScheduleCode (result r))]) ++
                 (if pystr_eqb (result r) (lit "Fail")
                  then [Log WARNING (MsgNonSuccess (error r))] else [])) ++
                [Log INFO (MsgStartingUpload ss_label)] = t3).
  { unfold t3, scheduled. now rewrite <- !app_assoc. }
  rewrite Ht3. destruct (data_post remote t3 (data_url config) body) as [resp|e].
  - rewrite run_logger. unfold ret. now trace_norm.
  - reflexivity.
Qed.

(** The opening tag of the subject data for the subject key [ss_oid]. *)
Definition subject_data_tag (ss_oid : pystr) : pystr :=
  lit "<SubjectData SubjectKey=" ++ quoted ss_oid ++ lit ">".

Lemma payload_empty_subject_key config items :
  occurs_in (subject_data_tag []) (payload config [] items).
Proof.
  unfold payload, submit_data.
  repeat lazymatch goal with
         | |- occurs_in _ (subject_xml _ _ _ _ _ ++ _) => apply occurs_app_l
         | |- occurs_in _ (_ ++ _) => apply occurs_app_r
         end.
  apply str_contains_occurs. reflexivity.
Qed.

(** (C10) A record whose identity resolution returned the empty string is
    not skipped: the event is scheduled for its label, the payload is
    built with [SubjectKey] equal to the empty string, and it is posted to
    the data service. *)
Theorem C10_empty_oid_still_submitted config columns header n (row : Row) t
    ss_label ss_gender t2 r (st : Row * pystr) :
  row_item row the_identifier_colname = Ok ss_label ->
  row_item row the_gender_colname = Ok ss_gender ->
  get_lc_ss_oid remote (lc_endpoint config) (lc_user config)
    (lc_password config) the_study_identifier ss_label ss_gender false
    (t ++ [Log INFO (MsgIteration n); Log INFO (MsgAdding ss_label)]) =
    (Ok [], t2) ->
  service_schedule remote (t2 ++ [Log INFO (MsgGotOid [])])
    (event_wsdl config) header (schedule_request ss_label) = Ok r ->
  foldM (add_item lib globals) (row, []) columns = Ok st ->
  let body := payload config [] (snd st) in
  exists outcome events after,
    submit_subject lib remote globals config columns header n row t =
      (outcome,
       t2 ++ events ++ Call (DataPost (data_url config) body) :: after)
    /\ Call (Schedule (event_wsdl config) header (schedule_request ss_label))
         ∈ events
    /\ body = submit_data (lc_user config) (lc_password config) the_study_oid
                (subject_xml [] the_event_oid the_form_oid the_item_group_oid
                             (snd st))
    /\ occurs_in (subject_data_tag []) body.
Proof.
  intros Hlabel Hgender Hresolve Hschedule Hitems body.
  pose proof (submit_subject_run config columns header n row t ss_label
                ss_gender [] t2 r st Hlabel Hgender Hresolve Hschedule Hitems)
    as Hrun.
  cbv zeta in Hrun. fold body in Hrun.
  exists (fst (submit_subject lib remote globals config columns header n row t)),
         (scheduled config header ss_label [] r).
  destruct (data_post remote _ (data_url config) body) as [resp|e];
    eexists; (split; [rewrite Hrun; cbn [fst]; rewrite <- !app_assoc; reflexivity|]);
    (split; [unfold scheduled; set_solver|]);
    (split; [reflexivity|apply payload_empty_subject_key]).
Qed.

(** *** Batches *)

Lemma count_app p (a b : Trace) : count p (a ++ b) = (count p a + count p b)%nat.
Proof. unfold count. now rewrite List.filter_app, length_app. Qed.

Lemma upload_labels_app (a b : Trace) :
  upload_labels (a ++ b) = upload_labels a ++ upload_labels b.
Proof.
  induction a as [|e a IH]; [done|]. cbn.
  destruct e as [c|lvl m]; [done|]. destruct m; cbn; now rewrite ?IH.
Qed.

(** Events that are neither a submission nor its announcement. *)
Definition quiet (new : Trace) : Prop :=
  count is_data_post new = 0%nat /\ upload_labels new = [].

Lemma quiet_app a b : quiet a -> quiet b -> quiet (a ++ b).
Proof.
  intros [Ha1 Ha2] [Hb1 Hb2]. split.
  - now rewrite count_app, Ha1, Hb1.
  - now rewrite upload_labels_app, Ha2, Hb2.
Qed.

(** The destination answers every identity and scheduling call (with a
    result of its choice), and a positive check carries the OID. *)
Definition answering : Prop :=
  (forall t w h s, exists r,
      service_isStudySubject remote t w h s = Ok r
      /\ (result r = lit "Success" -> raw_elements r <> []))
  /\ (forall t w h s, exists r, service_create remote t w h s = Ok r)
  /\ (forall t w h e, exists r, service_schedule remote t w h e = Ok r).


Lemma last_nonempty {A} (l : list A) : l <> [] -> exists x, last l = Some x.
Proof.
  intros H. destruct (last l) as [x|] eqn:Hl; [eauto|].
  now apply last_None in Hl.
Qed.

(** Against an answering destination the resolver returns, and what it
    adds to the history is quiet. *)
Lemma resolver_total e u pw si l g rerun t :
  answering ->
  exists oid new,
    get_lc_ss_oid remote e u pw si l g rerun t = (Ok oid, t ++ new)
    /\ quiet new.
Proof.
  intros (Hcheck & Hcreate & _).
  assert (Hactivation : forall t0 (again : M pystr),
    (forall t1, exists oid new, again t1 = (Ok oid, t1 ++ new) /\ quiet new) ->
    exists oid new,
      (let* _ := logger INFO (MsgTryingOid l) in
       let* r := client_isStudySubject remote (subject_wsdl e)
                   (credentials u pw) (check_request si l) in
       if pystr_eqb (result r) (lit "Success") then
         let* oid := pop_text (raw_elements r) in
         let* _ := logger INFO (MsgFoundOid oid) in
         ret oid
       else again) t0 = (Ok oid, t0 ++ new) /\ quiet new).
  { intros t0 again Hagain. rewrite run_logger.
    unfold client_isStudySubject. rewrite run_perform.
    destruct (Hcheck (t0 ++ [Log INFO (MsgTryingOid l)]) (subject_wsdl e)
                (credentials u pw) (check_request si l)) as (r & -> & Hraw).
    unfold pystr_eqb. case_bool_decide as Hres.
    - destruct (last_nonempty _ (Hraw Hres)) as [oid Hoid].
      unfold pop_text. rewrite Hoid. py_run. unfold ret.
      eexists oid, _. split; [trace_norm; reflexivity|done].
    - destruct (Hagain ((t0 ++ [Log INFO (MsgTryingOid l)]) ++
                        [Call (IsStudySubject (subject_wsdl e) (credentials u pw)
                                              (check_request si l))]))
        as (oid & new & -> & Hq).
      eexists oid, _. split; [rewrite <- !app_assoc; reflexivity|].
      apply (quiet_app [_; _]); done. }
  assert (Hrerun : forall t1, exists oid new,
    get_lc_ss_oid_rec remote 1 e u pw si l g true t1 = (Ok oid, t1 ++ new)
    /\ quiet new).
  { intros t1. cbn [get_lc_ss_oid_rec negb]. apply Hactivation.
    intros t2. rewrite run_logger. unfold ret.
    eexists [], _. split; [reflexivity|done]. }
  unfold get_lc_ss_oid. destruct rerun; [apply Hrerun|].
  remember 1%nat as one eqn:Hone. cbn [get_lc_ss_oid_rec negb].
  apply Hactivation. intros t1. py_run.
  unfold client_create. rewrite run_perform.
  match goal with
  | |- context [service_create remote ?t0 ?w ?h ?s] =>
      destruct (Hcreate t0 w h s) as (r2 & ->)
  end.
  destruct (pystr_eqb (result r2) (lit "Success")).
  - rewrite run_logger. subst one.
    match goal with
    | |- context [get_lc_ss_oid_rec _ _ _ _ _ _ _ _ _ ?t0] =>
        destruct (Hrerun t0) as (oid & new & -> & Hq)
    end.
    eexists oid, _. split; [rewrite <- !app_assoc; reflexivity|].
    apply (quiet_app [_; _; _]); done.
  - py_run. unfold ret. eexists [], _. split; [trace_norm; reflexivity|done].
Qed.


(** One record, resolved to [oid]: it is scheduled and posted once, and
    the answer of the data service is then classified. *)
Lemma upload_subject_posted config columns header n (row : Row) failed t
    l g oid rnew :
  answering ->
  row_item row the_identifier_colname = Ok l ->
  row_item row the_gender_colname = Ok g ->
  (forall c, c ∈ columns -> c ∈ map fst row) ->
  get_lc_ss_oid remote (lc_endpoint config) (lc_user config)
    (lc_password config) the_study_identifier l g false
    (t ++ [Log INFO (MsgIteration n); Log INFO (MsgAdding l)]) =
    (Ok oid, (t ++ [Log INFO (MsgIteration n); Log INFO (MsgAdding l)]) ++ rnew) ->
  quiet rnew ->
  exists before items,
    quiet before
    /\ (forall ev, ev ∈ rnew -> ev ∈ before)
    /\ upload_subject lib remote globals config columns header n row failed t =
       let post := Call (DataPost (data_url config) (payload config oid items)) in
       match data_post remote ((t ++ before) ++ [Log INFO (MsgStartingUpload l)])
               (data_url config) (payload config oid items) with
       | Ok resp =>
           interpret_response lib l (text resp) failed
             (t ++ before ++ [Log INFO (MsgStartingUpload l); post;
                              Log INFO (MsgUploadStatus (status_code resp))])
       | Raise e =>
           (Raise e, t ++ before ++ [Log INFO (MsgStartingUpload l); post])
       end.
Proof.
  intros (_ & _ & Hschedule) Hl Hg Hcols Hresolve Hquiet.
  destruct (Hschedule
              (((t ++ [Log INFO (MsgIteration n); Log INFO (MsgAdding l)]) ++ rnew)
               ++ [Log INFO (MsgGotOid oid)])
              (event_wsdl config) header (schedule_request l)) as [r Hr].
  destruct (add_items_append columns row [] Hcols) as (row' & items & Hitems & _).
  pose proof (submit_subject_run config columns header n row t l g oid _ r
                (row', [] ++ items) Hl Hg Hresolve Hr Hitems) as Hrun.
  cbv zeta in Hrun. cbn [snd app] in Hrun.
  set (before := [Log INFO (MsgIteration n); Log INFO (MsgAdding l)] ++ rnew ++
                 [Log INFO (MsgGotOid oid);
                  Call (Schedule (event_wsdl config) header (schedule_request l));
                  Log INFO (MsgScheduleCode (result r))] ++
                 (if pystr_eqb (result r) (lit "Fail")
                  then [Log WARNING (MsgNonSuccess (error r))] else [])).
  assert (Ht3 : ((t ++ [Log INFO (MsgIteration n); Log INFO (MsgAdding l)]) ++ rnew)
                ++ scheduled config header l oid r =
                (t ++ before) ++ [Log INFO (MsgStartingUpload l)]).
  { unfold scheduled, before. now rewrite <- !app_assoc. }
  rewrite Ht3 in Hrun.
  exists before, items.
  assert (Hbefore : quiet before).
  { unfold before. apply (quiet_app [_; _]); [done|].
    apply quiet_app; [done|]. apply (quiet_app [_; _; _]); [done|].
    now destruct (pystr_eqb _ _). }
  split; [done|]. split.
  - intros ev Hev. unfold before.
    apply elem_of_app. right. apply elem_of_app. now left.
  - cbv zeta. unfold upload_subject, bind at 1. rewrite Hrun.
    destruct (data_post remote _ _ _) as [resp|e]; cbn [fst snd];
      now rewrite <- !app_assoc.
Qed.

(** The label of a row: its cell in the identifier column. *)
Definition row_label (row : Row) : pyval :=
  match row_item row the_identifier_colname with
  | Ok l => l
  | Raise _ => PNone
  end.



Lemma df_iterrows_labels df row :
  row ∈ df_iterrows df -> map fst row = columns_of df.
Proof.
  unfold df_iterrows, columns_of. intros Hrow.
  apply list_elem_of_fmap in Hrow as (i & -> & _).
  rewrite map_map. now apply map_ext.
Qed.

Lemma df_iterrows_length df : length (df_iterrows df) = df_len df.
Proof. unfold df_iterrows. now rewrite length_map, length_seq. Qed.



End ScriptGlobals.

End OrchestratorProperties.

(** * Concrete runs in the reference world *)

(** An existing label: [P1] is found by the one check. *)
Lemma C3_existing_label_witness :
  get_lc_ss_oid (Reference.clinic Reference.three_patients)
    (lit "http://lc/ws/") (lit "user") (lit "hash") (lit "STUDY")
    (PStr (lit "P1")) (PInt 2) true [] =
  (Ok (lit "SS_P1"),
   [Log INFO (MsgTryingOid (PStr (lit "P1")));
    check_call (lit "http://lc/ws/") (lit "user") (lit "hash") (lit "STUDY")
               (PStr (lit "P1"));
    Log INFO (MsgFoundOid (lit "SS_P1"))]).
Proof.
  apply (C3_existing_label_one_check (Reference.clinic Reference.three_patients)
           (lit "http://lc/ws/") (lit "user") (lit "hash") (lit "STUDY")
           (PStr (lit "P1")) (PInt 2) true [] (Reference.found_ret "SS_P1")
           (lit "SS_P1")); reflexivity.
Defined.





(** A body whose second [<result>] element says ["Success"], after a first
    one that does not: the body holds a result element with ["Success"]
    in its text, and the record is put on the failure log all the same,
    because only the first element is looked at. *)
Lemma C1_later_success_element_counterexample :
  let body :=
    lit "<result>Fail</result><result>Success</result><error>no subject</error>" in
  let failure :=
    {| failed_subject := PStr (lit "P1"); failed_error := lit "no subject" |} in
  (exists r,
      In r (find_all Reference.lib body (lit "result"))
      /\ str_contains (lit "Success") r = true)
  /\ interpret_response Reference.lib (PStr (lit "P1")) body [] [] =
     (Ok [failure],
      [Log WARNING (MsgNonSuccess (Some (lit "no subject")));
       Log INFO (MsgFailedSubject failure)]).
Proof.
  vm_compute. split; [|reflexivity].
  eexists. split; [right; left; reflexivity|reflexivity].
Qed.

(** The first patient: the answer has the success marker, the loop over
    this one row ends with an empty failure log. *)
Lemma C1_response_decides_witness :
  let posted :=
    submit_subject Reference.lib (Reference.clinic Reference.three_patients)
      Reference.script_globals Reference.config
      (columns_of Reference.frame) Reference.header 1
      (nth 0 Reference.rows []) [] in
  iterrows_loop Reference.lib (Reference.clinic Reference.three_patients)
    Reference.script_globals Reference.config
    (columns_of Reference.frame) Reference.header
    [nth 0 Reference.rows []] 1 [] [] =
  (Ok [], snd posted ++ [Log INFO MsgSucceeded;
                         Log INFO (MsgResultText (lit "Success"))]).
Proof.
  intros posted.
  rewrite (C1_response_decides Reference.lib
             (Reference.clinic Reference.three_patients)
             Reference.script_globals Reference.config
             (columns_of Reference.frame) Reference.header 1
             (nth 0 Reference.rows []) [] [] []
             (PStr (lit "P1")) (lit "<result>Success</result>") (snd posted)).
  - reflexivity.
  - vm_compute. reflexivity.
Defined.

(** With the gate off the exit status is 0: the run does not end with a
    non-zero status. *)
Lemma C2_gate_off_exits_zero_counterexample :
  let off :=
    {| sparql_endpoint := sparql_endpoint Reference.config;
       query := query Reference.config;
       lc_endpoint := lc_endpoint Reference.config;
       lc_user := lc_user Reference.config;
       lc_password := lc_password Reference.config;
       study_oid := study_oid Reference.config;
       study_identifier := study_identifier Reference.config;
       event_oid := event_oid Reference.config;
       form_oid := form_oid Reference.config;
       item_group_oid := item_group_oid Reference.config;
       identifier_colname := identifier_colname Reference.config;
       gender_colname := gender_colname Reference.config;
       item_prefix := item_prefix Reference.config;
       alternative_item_oids := alternative_item_oids Reference.config;
       perform_query := false |} in
  let run :=
    upload_to_lc Reference.lib (Reference.clinic Reference.three_patients)
      ∅ Reference.script_globals off [] in
  run = (Raise (SystemExit 0), [Log CRITICAL MsgGateDisabled])
  /\ ~ (exists code, code <> 0 /\ fst run = Raise (SystemExit code)).
Proof.
  cbv zeta. split; [reflexivity|].
  intros (code & Hcode & Hrun). cbn in Hrun. congruence.
Qed.

(** A query answer without rows: the run exits with status 1 after the
    query, before any call to the destination. *)
Lemma C2_empty_result_witness :
  upload_to_lc Reference.lib (Reference.clinic Reference.no_patients) ∅
    Reference.script_globals Reference.config [] =
  (Raise (SystemExit 1),
   [Log INFO (MsgRetrieving (lit "http://fair/sparql"));
    Call (SparqlPost None (Some (None, None)) (lit "SELECT"));
    Log INFO (MsgStatusCode 200);
    Log ERROR MsgNoData]).
Proof.
  destruct (C2_gate_and_empty_result Reference.lib
              (Reference.clinic Reference.no_patients) ∅
              Reference.script_globals Reference.config []) as [_ Hempty].
  destruct (Hempty eq_refl (lit "SELECT")
              {| sparql_status := 200; sparql_json := Ok Reference.no_patients |}
              Reference.no_patients eq_refl eq_refl eq_refl eq_refl)
    as [Hrun _].
  exact Hrun.
Defined.


(** Two configurations that differ in all the identifier fields run
    alike. *)
Lemma C9_config_ids_witness :
  let other :=
    {| sparql_endpoint := sparql_endpoint Reference.config;
       query := lit "ASK";
       lc_endpoint := lc_endpoint Reference.config;
       lc_user := lc_user Reference.config;
       lc_password := lc_password Reference.config;
       study_oid := lit "S_2";
       study_identifier := lit "OTHER";
       event_oid := lit "SE_2";
       form_oid := lit "F_2";
       item_group_oid := lit "IG_2";
       identifier_colname := lit "name";
       gender_colname := lit "sex";
       item_prefix := lit "J_";
       alternative_item_oids := alternative_item_oids Reference.config;
       perform_query := perform_query Reference.config |} in
  upload_to_lc Reference.lib (Reference.clinic Reference.three_patients) ∅
    Reference.script_globals Reference.config [] =
  upload_to_lc Reference.lib (Reference.clinic Reference.three_patients) ∅
    Reference.script_globals other []
  /\ upload_to_lc Reference.lib (Reference.clinic Reference.three_patients) ∅
       ∅ Reference.config [] =
     (Raise (NameError "query"),
      [Log INFO (MsgRetrieving (lit "http://fair/sparql"))]).
Proof.
  intros other. split.
  - apply (C9_config_ids_not_read Reference.lib
             (Reference.clinic Reference.three_patients) ∅
             Reference.script_globals Reference.config other []).
    repeat split.
  - destruct (C9_config_ids_not_read Reference.lib
                (Reference.clinic Reference.three_patients) ∅ ∅
                Reference.config Reference.config [])
      as (_ & Hunbound & _); [repeat split|].
    apply Hunbound; reflexivity.
Defined.

(** The second patient is not found and cannot be created: its record is
    scheduled and posted all the same, with an empty subject key. *)
Lemma C10_empty_oid_witness :
  let remote := Reference.clinic Reference.three_patients in
  let row := nth 1 Reference.rows [] in
  exists outcome events after body,
    submit_subject Reference.lib remote Reference.script_globals
      Reference.config (columns_of Reference.frame) Reference.header 2 row [] =
    (outcome, events ++ Call (DataPost (data_url Reference.config) body) :: after)
    /\ Call (Schedule (event_wsdl Reference.config) Reference.header
                      (schedule_request (lit "STUDY") (lit "SE_1")
                                        (PStr (lit "P2")))) ∈ events
    /\ occurs_in (subject_data_tag []) body.
Proof.
  intros remote row.
  set (resolved :=
         get_lc_ss_oid remote (lit "http://lc/ws/") (lit "user") (lit "hash")
           (lit "STUDY") (PStr (lit "P2")) (PInt 2) false
           [Log INFO (MsgIteration 2); Log INFO (MsgAdding (PStr (lit "P2")))]).
  set (st := match foldM (add_item Reference.lib Reference.script_globals)
                     (row, []) (columns_of Reference.frame) with
             | Ok st => st
             | Raise _ => (row, [])
             end).
  destruct (C10_empty_oid_still_submitted Reference.lib remote
              Reference.script_globals
              (lit "S_1") (lit "STUDY") (lit "SE_1") (lit "F_1") (lit "IG_1")
              (lit "id") (lit "gender") (lit "I_")
              eq_refl eq_refl eq_refl eq_refl eq_refl eq_refl eq_refl eq_refl
              Reference.config (columns_of Reference.frame) Reference.header 2
              row [] (PStr (lit "P2")) (PInt 2) (snd resolved)
              Reference.ok_ret st)
    as (outcome & events & after & Hrun & Hschedule & _ & Hkey).
  - vm_compute. reflexivity.
  - vm_compute. reflexivity.
  - vm_compute. reflexivity.
  - reflexivity.
  - vm_compute. reflexivity.
  - eexists outcome, (snd resolved ++ events), after, _.
    split; [|split; [|exact Hkey]].
    + rewrite Hrun. now rewrite <- app_assoc.
    + apply elem_of_app. now right.
Defined.



Lemma clinic_answering answer : answering (Reference.clinic answer).
Proof.
  split; [|split]; intros t w h s; cbn.
  - repeat case_bool_decide; eexists; (split; [reflexivity|]); intros Hres;
      try (vm_compute in Hres; discriminate Hres); now vm_compute.
  - eauto.
  - eauto.
Qed.


(** * Further properties of the code *)

(** ** The identity resolver: failures and the rerun flag *)

Section ResolverFurther.

Variable remote : Remote.
Variables lc_endpoint lc_user lc_password study_identifier : pystr.
Variable ss_label : pyval.

Abbreviation wsdl := (subject_wsdl lc_endpoint).
Abbreviation hdr := (credentials lc_user lc_password).
Abbreviation check := (check_request study_identifier ss_label).
Abbreviation checked :=
  (check_call lc_endpoint lc_user lc_password study_identifier ss_label).

(** (X1) A failing transport ends the resolution at the failing call. When the
    existence check raises, [get_lc_ss_oid] ends with that exception after
    the one check call. When the check finds nothing and the create
    raises, it ends with that exception after the create call: there is no
    second check. *)
Theorem resolver_transport_failure_propagates ss_gender t exc :
  (forall rerun,
      service_isStudySubject remote (t ++ [Log INFO (MsgTryingOid ss_label)])
        wsdl hdr check = Raise exc ->
      get_lc_ss_oid remote lc_endpoint lc_user lc_password study_identifier
        ss_label ss_gender rerun t =
      (Raise exc, t ++ [Log INFO (MsgTryingOid ss_label); checked]))
  /\ (forall r1,
        service_isStudySubject remote (t ++ [Log INFO (MsgTryingOid ss_label)])
          wsdl hdr check = Ok r1 ->
        result r1 <> lit "Success" ->
        let before := [Log INFO (MsgTryingOid ss_label); checked;
                       Log INFO MsgCreatingNew] in
        let date := today remote (t ++ before) in
        service_create remote (t ++ before) wsdl hdr
          (create_request study_identifier ss_label date
                          (gender_code ss_gender)) = Raise exc ->
        get_lc_ss_oid remote lc_endpoint lc_user lc_password study_identifier
          ss_label ss_gender false t =
        (Raise exc,
         t ++ before ++
           [create_call lc_endpoint lc_user lc_password study_identifier
                        ss_label date (gender_code ss_gender)])).
Proof.
  split.
  - intros rerun Hcheck. unfold get_lc_ss_oid.
    destruct rerun; cbn [get_lc_ss_oid_rec];
      rewrite run_logger; unfold client_isStudySubject; rewrite run_perform;
      fold wsdl hdr check; rewrite Hcheck; now trace_norm.
  - intros r1 Hcheck Hres before date Hcreate.
    subst before date.
    unfold create_call, check_call, create_request, check_request,
      subject_wsdl, credentials in *.
    unfold get_lc_ss_oid. remember 1%nat as one eqn:Hone.
    cbn [get_lc_ss_oid_rec].
    rewrite run_logger. unfold client_isStudySubject. rewrite run_perform.
    rewrite Hcheck, (pystr_eqb_false _ _ Hres). cbn [negb].
    rewrite run_logger, run_observe. unfold client_create.
    rewrite run_perform. trace_norm. rewrite Hcreate. reflexivity.
Qed.

(** (X2) A call with [rerun=True] makes exactly one call, the check, and never
    a create, whatever the remote system answers. Its result is the OID
    of the check, the empty string, or an exception. *)
Theorem resolver_rerun_checks_once ss_gender t :
  exists new,
    snd (get_lc_ss_oid remote lc_endpoint lc_user lc_password study_identifier
           ss_label ss_gender true t) = t ++ new
    /\ count is_check new = 1%nat
    /\ count is_create new = 0%nat
    /\ count is_call new = 1%nat.
Proof.
  unfold get_lc_ss_oid. cbn [get_lc_ss_oid_rec]. rewrite run_logger.
  unfold client_isStudySubject. rewrite run_perform.
  destruct (service_isStudySubject _ _ _ _ _) as [r|e].
  - destruct (pystr_eqb (result r) (lit "Success")).
    + unfold pop_text. destruct (last (raw_elements r)) as [oid|].
      * rewrite run_ret, run_logger. unfold ret.
        eexists. split; [trace_norm; reflexivity|now cbn].
      * rewrite run_raise.
        eexists. split; [trace_norm; reflexivity|now cbn].
    + cbn [negb]. rewrite run_logger. unfold ret.
      eexists. split; [trace_norm; reflexivity|now cbn].
  - eexists. split; [trace_norm; reflexivity|now cbn].
Qed.

End ResolverFurther.

(** ** The result materializer: shape and cells of the frame *)



Section MaterializerFurther.

Variable lib : PyLib.

(** The column of a variable, as the result determines it. *)
Definition column_of_results (r : SparqlResults) (col : pystr) : Series :=
  match bindings r with
  | [] => {| series_dtype := DObject; series_values := [] |}
  | first_row :: _ =>
      typed_series lib (row_get first_row col) (raw_column (bindings r) col)
  end.

Lemma typed_series_values b vs :
  series_values (typed_series lib b vs) =
  match series_dtype (typed_series lib b vs) with
  | DObject => vs
  | DCategory => map typed_cell vs
  | DInt64 => map typed_cell (map (int_cell lib) vs)
  | DFloat64 => map typed_cell (map (float_cell lib) vs)
  end.
Proof.
  unfold typed_series.
  repeat match goal with |- context [if ?c then _ else _] => destruct c end;
    reflexivity.
Qed.


(** The frame of any result with distinct variables. *)
Lemma frame_of_results r :
  NoDup (head_vars r) ->
  exists df,
    dataframe_of_results lib r = Ok df
    /\ columns_of df = head_vars r
    /\ df_len df = length (bindings r)
    /\ forall col, col ∈ head_vars r ->
         df_get df col = Ok (column_of_results r col).
Proof.
  intros Hnd. unfold column_of_results.
  destruct (bindings r) as [|first_row rest] eqn:Hb.
  - unfold dataframe_of_results. rewrite Hb. cbn [map].
    eexists. split; [reflexivity|].
    pose proof (pd_DataFrame_columns [] (head_vars r)) as Hcols.
    cbn [map] in Hcols.
    split; [|split; [reflexivity|]].
    + unfold columns_of. rewrite Hcols, map_map. cbn. apply map_id.
    + intros col Hcol.
      change (pd_DataFrame [] (head_vars r)) with
        {| df_columns := df_columns (pd_DataFrame [] (head_vars r));
           df_len := 0 |}.
      rewrite Hcols. exact (df_get_fresh [] (head_vars r) 0 col Hcol).
  - destruct (dataframe_of_results_spec lib r first_row rest Hnd Hb)
      as (df & Hrun & Hcols & Hlen & Hget).
    exists df. rewrite Hb in *. auto.
Qed.







End MaterializerFurther.

(** ** [query_from_file]: the query that is sent *)

Lemma replace_char_lookup old new (s : list N) i c :
  s !! i = Some c ->
  replace_char old new s !! i = Some (if (c =? old)%N then new else c).
Proof.
  intros Hc. unfold replace_char, pystr. change (map ?f ?l) with (f <$> l).
  now rewrite list_lookup_fmap, Hc.
Qed.

Lemma replace_char_removes old new (s : list N) :
  new <> old -> old ∉ replace_char old new s.
Proof.
  intros Hne Hin. unfold replace_char in Hin.
  change (map ?f ?l) with (f <$> l) in Hin.
  apply list_elem_of_fmap in Hin as (c & Hc & _).
  destruct (N.eqb_spec c old); congruence.
Qed.

Section QueryFileFurther.

Variable lib : PyLib.
Variable remote : Remote.
Variable environ : gmap string pystr.
Variable read_file : pystr -> pyresult pystr.

Lemma get_sparql_dataframe_request query auth_required t :
  exists new,
    snd (get_sparql_dataframe lib remote environ query auth_required t) =
    t ++ Call (SparqlPost (environ !! "SPARQL_QUERY_ENDPOINT"%string)
                 (if auth_required
                  then Some (environ !! "USER"%string,
                             environ !! "USER_PWD"%string)
                  else None) query) :: new.
Proof.
  unfold get_sparql_dataframe. rewrite run_perform.
  destruct (sparql_endpoint_post _ _ _ _ _) as [r|e].
  - rewrite run_logger, run_lift.
    destruct (sparql_json r) as [results|e]; unfold lift;
      eexists; trace_norm; reflexivity.
  - exists []. reflexivity.
Qed.

(** (X8) [query_from_file] sends the text of the file on one line. A file that
    cannot be read ends the call with the exception of the read, and
    nothing is sent. Otherwise the call is [get_sparql_dataframe] on the
    text in which every line feed is a space: the query has the length of
    the text, holds no line feed, differs from the text only where the
    text has one, and is the query of the request the call sends first,
    to the endpoint of the environment and with its credentials. *)
Theorem query_from_file_sends_one_line file_name t :
  (forall e, read_file file_name = Raise e ->
     query_from_file lib remote environ read_file file_name t = (Raise e, t))
  /\ (forall content, read_file file_name = Ok content ->
        let query := replace_char 10 32 content in
        query_from_file lib remote environ read_file file_name t =
          get_sparql_dataframe lib remote environ query true t
        /\ length query = length content
        /\ (10 ∉ query)%N
        /\ (forall i c, content !! i = Some c ->
              query !! i = Some (if (c =? 10)%N then 32%N else c))
        /\ exists new,
             snd (query_from_file lib remote environ read_file file_name t) =
             t ++ Call (SparqlPost (environ !! "SPARQL_QUERY_ENDPOINT"%string)
                          (Some (environ !! "USER"%string,
                                 environ !! "USER_PWD"%string)) query) :: new).
Proof.
  split.
  - intros e Hread. unfold query_from_file. now rewrite run_lift, Hread.
  - intros content Hread query.
    assert (Hrun : query_from_file lib remote environ read_file file_name t =
                   get_sparql_dataframe lib remote environ query true t).
    { unfold query_from_file. now rewrite run_lift, Hread. }
    split; [exact Hrun|]. split.
    { subst query. unfold replace_char. apply length_map. }
    split.
    { subst query. now apply replace_char_removes. }
    split.
    { intros i c Hc. subst query. now apply replace_char_lookup. }
    rewrite Hrun.
    exact (get_sparql_dataframe_request query true t).
Qed.

End QueryFileFurther.

(** ** From the frame to the rows of the loop *)

Lemma row_item_missing (row : Row) name :
  name ∉ map fst row -> row_item row name = Raise (KeyError name).
Proof.
  induction row as [|c row IH]; intros Hname; [reflexivity|].
  rewrite row_item_cons. cbn in Hname.
  apply not_elem_of_cons in Hname as [Hne Hname].
  rewrite bool_decide_eq_false_2 by congruence. now apply IH.
Qed.



(** (X10) The gender code is a matter of numbers only. [get_lc_ss_oid] turns a
    gender into ["m"] or ["f"] when it equals the number 1 or 2. A column
    the materializer left as free text or made categorical holds strings
    and missing cells, so each of its cells is sent to the destination as
    it is: the text ["1"] is not the number 1. *)
Theorem text_gender_is_sent_unchanged lib r df col s v :
  NoDup (head_vars r) ->
  dataframe_of_results lib r = Ok df ->
  df_get df col = Ok s ->
  series_dtype s = DObject \/ series_dtype s = DCategory ->
  v ∈ series_values s ->
  gender_code v = v.
Proof.
  intros Hnd Hrun Hget Hd Hv.
  destruct (frame_of_results lib r Hnd) as (df' & Hrun' & Hcols & _ & Hget').
  assert (df' = df) as -> by congruence.
  assert (Hcol : col ∈ head_vars r).
  { rewrite <- Hcols. exact (df_get_elem df col s Hget). }
  rewrite (Hget' col Hcol) in Hget. injection Hget as <-.
  assert (Hraw : forall w, w ∈ raw_column (bindings r) col -> is_raw w = true).
  { intros w Hw. pose proof (raw_column_is_raw (bindings r) col) as Hall.
    rewrite forallb_forall in Hall. apply Hall. now apply list_elem_of_In. }
  unfold column_of_results in *.
  destruct (bindings r) as [|first_row rest] eqn:Hb.
  { cbn in Hv. now apply elem_of_nil in Hv. }
  rewrite typed_series_values in Hv.
  destruct (series_dtype (typed_series lib _ _)) eqn:Hdt;
    try (destruct Hd; discriminate).
  - apply Hraw in Hv. now destruct v.
  - change (map ?f ?l) with (f <$> l) in Hv.
    apply list_elem_of_fmap in Hv as (w & -> & Hw).
    apply Hraw in Hw. now destruct w.
Qed.

(** ** What a computation adds to the history *)

Lemma bind_cases {A B} (m : M A) (k : A -> M B) t :
  bind m k t =
  match m t with
  | (Ok a, t') => k a t'
  | (Raise e, t') => (Raise e, t')
  end.
Proof. reflexivity. Qed.

Section Adds.

(** A property of the events a computation appends, kept by
    concatenation. *)
Variable P : Trace -> Prop.
Hypothesis P_nil : P [].
Hypothesis P_app : forall a b, P a -> P b -> P (a ++ b).

(** The computation only appends to the history, and what it appends
    satisfies [P], whatever its outcome. *)
Definition adds {A} (m : M A) : Prop :=
  forall t, exists new, snd (m t) = t ++ new /\ P new.

Lemma adds_ret {A} (a : A) : adds (ret a).
Proof. intros t. exists []. split; [symmetry; apply app_nil_r|exact P_nil]. Qed.

Lemma adds_raise {A} e : adds (@raise A e).
Proof. intros t. exists []. split; [symmetry; apply app_nil_r|exact P_nil]. Qed.

Lemma adds_sys_exit {A} code : adds (@sys_exit A code).
Proof. apply adds_raise. Qed.

Lemma adds_lift {A} (r : pyresult A) : adds (lift r).
Proof. intros t. exists []. split; [symmetry; apply app_nil_r|exact P_nil]. Qed.

Lemma adds_observe {A} (f : Trace -> A) : adds (observe f).
Proof. intros t. exists []. split; [symmetry; apply app_nil_r|exact P_nil]. Qed.

Lemma adds_logger lvl msg : P [Log lvl msg] -> adds (logger lvl msg).
Proof. intros H t. now exists [Log lvl msg]. Qed.

Lemma adds_perform {A} c (answer : Trace -> pyresult A) :
  P [Call c] -> adds (perform c answer).
Proof. intros H t. now exists [Call c]. Qed.

Lemma adds_bind {A B} (m : M A) (k : A -> M B) :
  adds m -> (forall a, adds (k a)) -> adds (bind m k).
Proof.
  intros Hm Hk t. destruct (Hm t) as (n1 & H1 & P1).
  rewrite bind_cases. destruct (m t) as [[a|e] t1]; cbn [snd] in H1; subst t1.
  - destruct (Hk a (t ++ n1)) as (n2 & H2 & P2).
    exists (n1 ++ n2). rewrite H2, app_assoc. auto.
  - exists n1. auto.
Qed.

End Adds.

(** One step of a proof that a computation [adds] events of a kind: the
    rule of the head of the computation, or a case analysis. *)
Ltac adds_step P_nil P_app :=
  first
    [ apply (adds_bind _ P_app); [|intros ?]
    | apply (adds_ret _ P_nil)
    | apply (adds_sys_exit _ P_nil)
    | apply (adds_raise _ P_nil)
    | apply (adds_lift _ P_nil)
    | apply (adds_observe _ P_nil)
    | apply adds_logger
    | apply adds_perform
    | match goal with
      | |- adds _ (match ?x with _ => _ end) => destruct x
      end ].

Ltac adds_run P_nil P_app := repeat adds_step P_nil P_app.

(** Running the head of a sequence of steps, whatever its nesting. *)
Ltac py_seq :=
  repeat (rewrite ?bind_assoc;
          first [ rewrite run_logger | rewrite run_lift | rewrite run_ret
                | rewrite run_observe ];
          cbv beta iota).

Lemma quiet_nil : quiet [].
Proof. done. Qed.

(** Whatever the destination answers, the resolver adds neither a
    submission nor its announcement. *)
Lemma resolver_rec_quiet remote calls_left e u pw si l g :
  forall rerun,
    adds quiet (get_lc_ss_oid_rec remote calls_left e u pw si l g rerun).
Proof.
  induction calls_left as [|calls_left IH]; intros rerun;
    cbn [get_lc_ss_oid_rec].
  - apply adds_raise, quiet_nil.
  - unfold client_isStudySubject, client_create, pop_text.
    adds_run quiet_nil quiet_app; try apply IH; done.
Qed.

Lemma resolver_quiet remote e u pw si l g rerun :
  adds quiet (get_lc_ss_oid remote e u pw si l g rerun).
Proof. apply resolver_rec_quiet. Qed.

(** Events that are not a query request. *)
Definition is_query (e : Event) : bool :=
  match e with Call (SparqlPost _ _ _) => true | _ => false end.

Definition no_query (new : Trace) : Prop := count is_query new = 0%nat.

Lemma no_query_nil : no_query [].
Proof. done. Qed.

Lemma no_query_app a b : no_query a -> no_query b -> no_query (a ++ b).
Proof. unfold no_query. intros Ha Hb. now rewrite count_app, Ha, Hb. Qed.

Lemma resolver_rec_no_query remote calls_left e u pw si l g :
  forall rerun,
    adds no_query (get_lc_ss_oid_rec remote calls_left e u pw si l g rerun).
Proof.
  induction calls_left as [|calls_left IH]; intros rerun;
    cbn [get_lc_ss_oid_rec].
  - apply adds_raise, no_query_nil.
  - unfold client_isStudySubject, client_create, pop_text.
    adds_run no_query_nil no_query_app; try apply IH; done.
Qed.

Lemma interpret_response_no_query lib l response_text failed :
  adds no_query (interpret_response lib l response_text failed).
Proof.
  unfold interpret_response. adds_run no_query_nil no_query_app; done.
Qed.

Lemma submit_subject_no_query lib remote globals config columns header n row :
  adds no_query (submit_subject lib remote globals config columns header n row).
Proof.
  unfold submit_subject.
  repeat first [ apply resolver_rec_no_query
               | adds_step no_query_nil no_query_app ];
    done.
Qed.

Lemma iterrows_loop_no_query lib remote globals config columns header rows :
  forall n failed,
    adds no_query
      (iterrows_loop lib remote globals config columns header rows n failed).
Proof.
  induction rows as [|row rows IH]; intros n failed; cbn [iterrows_loop].
  - apply adds_ret, no_query_nil.
  - apply (adds_bind _ no_query_app); [|intros failed'; apply IH].
    unfold upload_subject.
    apply (adds_bind _ no_query_app);
      [apply submit_subject_no_query|intros posted].
    apply interpret_response_no_query.
Qed.

(** ** The orchestrator: the request, the items and the ways a run ends *)

Section OrchestratorFurther.

Variable lib : PyLib.
Variable remote : Remote.
Variable environ : gmap string pystr.
Variable globals : gmap string pystr.

(** The part of [upload_to_lc] after the frame has been received. *)
Definition upload_rows (config : LCConfig) (df : DataFrame) : M unit :=
  let renamed := df_rename df (alternative_item_oids config) in
  let* failed_subjects :=
    iterrows_loop lib remote globals config (columns_of renamed)
      {| username := lc_user config; password := lc_password config |}
      (df_iterrows renamed) 1 [] in
  let* _ := match failed_subjects with
            | [] => ret tt
            | _ :: _ => logger WARNING (MsgFailedSubjects failed_subjects)
            end in
  let* _ := logger INFO (MsgTotalExpected (df_len renamed)) in
  logger INFO (MsgNumFailed (length failed_subjects)).

Lemma upload_to_lc_enters_loop config q df t t1 :
  perform_query config = true ->
  globals !! "query"%string = Some q ->
  get_sparql_dataframe lib remote environ q true
    (t ++ [Log INFO (MsgRetrieving (sparql_endpoint config))]) = (Ok df, t1) ->
  df_len df <> 0%nat ->
  let renamed := df_rename df (alternative_item_oids config) in
  upload_to_lc lib remote environ globals config t =
  upload_rows config df
    (t1 ++ [Log INFO (MsgReceivedRows (df_len df));
            Log INFO (MsgHaveColumns (columns_of renamed))]).
Proof.
  intros Hon Hq Hdf Hlen renamed.
  unfold upload_to_lc. rewrite Hon. cbn [negb].
  rewrite run_ret, run_logger. unfold global_var at 1. rewrite Hq, run_lift.
  rewrite (bind_Ok _ _ _ _ _ Hdf).
  apply Nat.eqb_neq in Hlen. rewrite Hlen.
  rewrite run_ret, !run_logger. now trace_norm.
Qed.

Lemma upload_rows_no_query config df : adds no_query (upload_rows config df).
Proof.
  unfold upload_rows.
  repeat first [ apply iterrows_loop_no_query
               | adds_step no_query_nil no_query_app ];
    done.
Qed.

(** (X11) One query, to the endpoint of the environment. A call that passes the
    gate sends, as its first call and right after the log record that
    names [config.sparql_endpoint], the module-level [query] to the
    endpoint of the environment variable [SPARQL_QUERY_ENDPOINT], with the
    credentials [USER] and [USER_PWD] of the environment. The endpoint of
    the configuration only appears in the log record. No later event of
    the run is a query request, however the run ends. *)
Theorem one_query_to_environment_endpoint config q t :
  perform_query config = true ->
  globals !! "query"%string = Some q ->
  exists rest,
    snd (upload_to_lc lib remote environ globals config t) =
    t ++ [Log INFO (MsgRetrieving (sparql_endpoint config));
          Call (SparqlPost (environ !! "SPARQL_QUERY_ENDPOINT"%string)
                  (Some (environ !! "USER"%string,
                         environ !! "USER_PWD"%string)) q)] ++ rest
    /\ count is_query rest = 0%nat.
Proof.
  intros Hon Hq.
  destruct (get_sparql_dataframe lib remote environ q true
              (t ++ [Log INFO (MsgRetrieving (sparql_endpoint config))]))
    as [[df|e] t1] eqn:Hdf.
  - assert (Ht1 : exists status,
              t1 = t ++ [Log INFO (MsgRetrieving (sparql_endpoint config));
                         Call (SparqlPost (environ !! "SPARQL_QUERY_ENDPOINT"%string)
                                 (Some (environ !! "USER"%string,
                                        environ !! "USER_PWD"%string)) q);
                         Log INFO (MsgStatusCode status)]).
    { revert Hdf. unfold get_sparql_dataframe. rewrite run_perform.
      destruct (sparql_endpoint_post _ _ _ _ _) as [r|e]; [|intros [=]].
      rewrite run_logger, run_lift.
      destruct (sparql_json r) as [results|e]; [|intros [=]].
      unfold lift. intros [= _ <-]. exists (sparql_status r). now trace_norm. }
    destruct Ht1 as (status & Ht1).
    destruct (Nat.eq_dec (df_len df) 0%nat) as [Hzero|Hlen].
    + unfold upload_to_lc. rewrite Hon. cbn [negb].
      rewrite run_ret, run_logger. unfold global_var at 1.
      rewrite Hq, run_lift. rewrite (bind_Ok _ _ _ _ _ Hdf).
      rewrite Hzero. cbn [Nat.eqb]. rewrite bind_assoc, run_logger.
      unfold sys_exit. rewrite run_raise. cbn [snd]. subst t1.
      eexists. split; [trace_norm; reflexivity|done].
    + rewrite (upload_to_lc_enters_loop config q df t t1 Hon Hq Hdf Hlen).
      destruct (upload_rows_no_query config df
                  (t1 ++ [Log INFO (MsgReceivedRows (df_len df));
                          Log INFO (MsgHaveColumns
                                      (columns_of
                                         (df_rename df
                                            (alternative_item_oids config))))]))
        as (new & -> & Hnew).
      subst t1. eexists. split; [trace_norm; reflexivity|].
      exact Hnew.
  - assert (Ht1 : exists rest,
              t1 = t ++ [Log INFO (MsgRetrieving (sparql_endpoint config));
                         Call (SparqlPost (environ !! "SPARQL_QUERY_ENDPOINT"%string)
                                 (Some (environ !! "USER"%string,
                                        environ !! "USER_PWD"%string)) q)] ++ rest
              /\ count is_query rest = 0%nat).
    { revert Hdf. unfold get_sparql_dataframe. rewrite run_perform.
      destruct (sparql_endpoint_post _ _ _ _ _) as [r|e0].
      - rewrite run_logger, run_lift.
        destruct (sparql_json r) as [results|e0]; unfold lift;
          intros [= _ <-]; eexists; (split; [trace_norm; reflexivity|done]).
      - intros [= _ <-]. exists []. split; [now trace_norm|done]. }
    destruct Ht1 as (rest & Ht1 & Hrest).
    unfold upload_to_lc. rewrite Hon. cbn [negb].
    rewrite run_ret, run_logger. unfold global_var at 1.
    rewrite Hq, run_lift. rewrite (bind_Raise _ _ _ _ _ Hdf). cbn [snd].
    exists rest. split; [exact Ht1|exact Hrest].
Qed.

Lemma row_item_set_ne (row : Row) name other w :
  other <> name -> row_item (row_set row name w) other = row_item row other.
Proof.
  intros Hne. induction row as [|c row IH]; [reflexivity|].
  unfold row_set. cbn [map]. fold (row_set row name w).
  rewrite !row_item_cons.
  destruct (decide (c.1 = name)) as [Hc|Hc].
  - rewrite (bool_decide_eq_true_2 _ Hc). cbn [fst].
    rewrite !bool_decide_eq_false_2 by congruence. exact IH.
  - rewrite (bool_decide_eq_false_2 _ Hc).
    destruct (bool_decide (c.1 = other)); [reflexivity|exact IH].
Qed.

Lemma unidecode_without_high_chars s :
  existsb (fun char => (ascii_range <? char)%N) s = false ->
  unidecode lib s = s.
Proof.
  intros Hs. rewrite unidecode_above_range. now apply unidecode_ascii.
Qed.

Section BoundNames.

Variables the_study_oid the_study_identifier the_event_oid the_form_oid : pystr.
Variables the_item_group_oid the_identifier_colname the_gender_colname : pystr.
Variable the_item_prefix : pystr.

Hypothesis study_oid_bound :
  globals !! "study_oid"%string = Some the_study_oid.
Hypothesis study_identifier_bound :
  globals !! "study_identifier"%string = Some the_study_identifier.
Hypothesis event_oid_bound :
  globals !! "event_oid"%string = Some the_event_oid.
Hypothesis form_oid_bound :
  globals !! "form_oid"%string = Some the_form_oid.
Hypothesis item_group_oid_bound :
  globals !! "item_group_oid"%string = Some the_item_group_oid.
Hypothesis identifier_colname_bound :
  globals !! "identifier_colname"%string = Some the_identifier_colname.
Hypothesis gender_colname_bound :
  globals !! "gender_colname"%string = Some the_gender_colname.
Hypothesis item_prefix_bound :
  globals !! "item_prefix"%string = Some the_item_prefix.

(** The [ItemData] element of one column of a row: none for the
    identifier column and for a missing cell; otherwise the element of
    the prefixed column name and the value, a string transliterated and
    any other value as [str] prints it. *)
Definition item_element (row : Row) (name : pystr) : pystr :=
  if pystr_eqb name the_identifier_colname then []
  else
    match row_item row name with
    | Ok v =>
        if pd_notna v then
          item_data [] the_item_prefix name
            match v with
            | PStr s => unidecode lib s
            | _ => py_str lib v
            end
        else []
    | Raise _ => []
    end.

Lemma add_item_element (row : Row) (items name : pystr) :
  name ∈ map fst row ->
  exists row' : Row,
    add_item lib globals (row, items) name =
      Ok (row', items ++ item_element row name)
    /\ map fst row' = map fst row
    /\ forall other, other <> name -> row_item row' other = row_item row other.
Proof.
  intros Hname. unfold add_item, item_element, global_var.
  cbn [fst snd]. rewrite identifier_colname_bound, item_prefix_bound.
  cbn [rbind].
  destruct (pystr_eqb name the_identifier_colname); cbn [negb].
  { exists row. now rewrite app_nil_r. }
  destruct (row_item_labels row name Hname) as [v Hv]. rewrite Hv. cbn [rbind].
  destruct (pd_notna v) eqn:Hna.
  2:{ exists row. now rewrite app_nil_r. }
  destruct v as [|s|z|f].
  - discriminate.
  - destruct (existsb _ s) eqn:Hhigh.
    + exists (row_set row name (PStr (unidecode lib s))).
      rewrite (row_item_set_eq row name _ _ Hv). cbn [rbind py_str].
      split; [reflexivity|]. split; [apply row_set_labels|].
      intros other Hother. now apply row_item_set_ne.
    + exists row. rewrite Hv. cbn [rbind py_str].
      rewrite (unidecode_without_high_chars s Hhigh). done.
  - exists row. rewrite Hv. done.
  - exists row. rewrite Hv. done.
Qed.

Lemma add_items_elements columns : forall (row0 row : Row) (items : pystr),
  NoDup columns ->
  (forall name, name ∈ columns -> name ∈ map fst row) ->
  map fst row0 = map fst row ->
  (forall name, name ∈ columns -> row_item row0 name = row_item row name) ->
  exists row' : Row,
    foldM (add_item lib globals) (row0, items) columns =
      Ok (row', items ++ concat (map (item_element row) columns))
    /\ map fst row' = map fst row.
Proof.
  induction columns as [|name columns IH]; intros row0 row items Hnd Hin Hl Hag.
  - exists row0. cbn. now rewrite app_nil_r.
  - apply NoDup_cons in Hnd as [Hfresh Hnd].
    assert (Hname : name ∈ map fst row0).
    { rewrite Hl. apply Hin. now left. }
    destruct (add_item_element row0 items name Hname)
      as (row1 & Hstep & Hl1 & Hother).
    cbn [foldM]. rewrite Hstep. cbn [rbind].
    destruct (IH row1 row (items ++ item_element row0 name) Hnd) as (row' & Hrun & Hl').
    + intros c Hc. apply Hin. now right.
    + congruence.
    + intros c Hc. rewrite Hother.
      * apply Hag. now right.
      * intros ->. contradiction.
    + exists row'. split; [|exact Hl'].
      etransitivity; [exact Hrun|].
      cbn [map concat]. rewrite <- app_assoc. do 3 f_equal.
      unfold item_element. rewrite (Hag name); [reflexivity|now left].
Qed.

(** (X12) The items of a record. Over distinct columns that the row has, the
    loop over the columns ends normally, and [items] is the concatenation,
    in column order, of one [ItemData] element per column: none for the
    identifier column, none for a missing cell, and otherwise the element
    with the prefixed column name and the value of the cell. The row keeps
    its labels. *)
Theorem items_in_column_order columns (row : Row) :
  NoDup columns ->
  (forall name, name ∈ columns -> name ∈ map fst row) ->
  exists row' : Row,
    foldM (add_item lib globals) (row, []) columns =
      Ok (row', concat (map (item_element row) columns))
    /\ map fst row' = map fst row
    /\ (forall name, item_element row name = [] \/
          exists v value,
            row_item row name = Ok v /\ pd_notna v = true
            /\ name <> the_identifier_colname
            /\ item_element row name =
               lit "<ItemData ItemOID=" ++ quoted (the_item_prefix ++ name) ++
               lit " Value=" ++ quoted value ++ lit "/>" ++ nl).
Proof.
  intros Hnd Hin.
  destruct (add_items_elements columns row row [] Hnd Hin eq_refl)
    as (row' & Hrun & Hl); [done|].
  exists row'. split; [exact Hrun|]. split; [exact Hl|].
  intros name. unfold item_element. unfold pystr_eqb.
  case_bool_decide as Hid; [now left|].
  destruct (row_item row name) as [v|e]; [|now left].
  destruct (pd_notna v) eqn:Hna; [|now left].
  right. eexists v, _. repeat split; try done.
Qed.

Lemma first_row_of_frame df :
  df_len df <> 0%nat ->
  exists (row : Row) rows,
    df_iterrows df = row :: rows /\ map fst row = columns_of df.
Proof.
  intros Hlen.
  assert (Hrows : exists row rows, df_iterrows df = row :: rows).
  { unfold df_iterrows. destruct (df_len df); [done|]. cbn [seq map]. eauto. }
  destruct Hrows as (row & rows & Hrows). exists row, rows.
  split; [exact Hrows|]. apply df_iterrows_labels. rewrite Hrows. now left.
Qed.

(** (X13) A column the query does not deliver. When the frame has rows and the
    identifier column named by the module-level [identifier_colname] is
    not among its columns (after the renaming), the run ends with a
    [KeyError] at the first record, before any call to the destination;
    when the identifier column is there and the gender column is not, it
    ends with the [KeyError] of the gender column, one log record
    later. Nothing is uploaded and no summary is logged. *)
Theorem missing_column_is_a_key_error config q df t t1 :
  perform_query config = true ->
  globals !! "query"%string = Some q ->
  get_sparql_dataframe lib remote environ q true
    (t ++ [Log INFO (MsgRetrieving (sparql_endpoint config))]) = (Ok df, t1) ->
  df_len df <> 0%nat ->
  let renamed := df_rename df (alternative_item_oids config) in
  let started := t1 ++ [Log INFO (MsgReceivedRows (df_len df));
                        Log INFO (MsgHaveColumns (columns_of renamed));
                        Log INFO (MsgIteration 1)] in
  (the_identifier_colname ∉ columns_of renamed ->
   upload_to_lc lib remote environ globals config t =
   (Raise (KeyError the_identifier_colname), started))
  /\ (the_identifier_colname ∈ columns_of renamed ->
      the_gender_colname ∉ columns_of renamed ->
      exists ss_label,
        upload_to_lc lib remote environ globals config t =
        (Raise (KeyError the_gender_colname),
         started ++ [Log INFO (MsgAdding ss_label)])).
Proof.
  intros Hon Hq Hdf Hlen renamed started.
  rewrite (upload_to_lc_enters_loop config q df t t1 Hon Hq Hdf Hlen).
  unfold upload_rows. fold renamed.
  destruct (first_row_of_frame renamed Hlen) as (row & rows & -> & Hlabels).
  cbn [iterrows_loop]. unfold upload_subject, submit_subject, global_var.
  rewrite identifier_colname_bound, study_identifier_bound,
    gender_colname_bound.
  py_seq.
  split.
  - intros Hid. rewrite <- Hlabels in Hid.
    rewrite (row_item_missing row _ Hid).
    unfold started. now trace_norm.
  - intros Hid Hgender. rewrite <- Hlabels in Hid, Hgender.
    destruct (row_item_labels row _ Hid) as [ss_label Hlabel].
    exists ss_label.
    rewrite Hlabel. py_seq.
    rewrite (row_item_missing row _ Hgender).
    unfold started. now trace_norm.
Qed.

(** (X14) A scheduling answer is logged, never acted on. Whatever result the
    event service returns, the record is rendered and posted to the data
    service: a result ["Fail"] adds one warning with the error of the
    answer, any other result adds nothing, and in both cases the next
    events are the announcement of the upload and the post of the
    payload. *)
Theorem schedule_result_does_not_stop_upload config columns header n
    (row : Row) t ss_label ss_gender ss_oid t2 r (st : Row * pystr) :
  row_item row the_identifier_colname = Ok ss_label ->
  row_item row the_gender_colname = Ok ss_gender ->
  get_lc_ss_oid remote (lc_endpoint config) (lc_user config)
    (lc_password config) the_study_identifier ss_label ss_gender false
    (t ++ [Log INFO (MsgIteration n); Log INFO (MsgAdding ss_label)]) =
    (Ok ss_oid, t2) ->
  service_schedule remote (t2 ++ [Log INFO (MsgGotOid ss_oid)])
    (lc_endpoint config ++ lit "event/v1/eventWsdl.wsdl") header
    {| studySubjectRef := ss_label;
       event_studyRef := the_study_identifier;
       eventDefinitionOID := the_event_oid;
       startDate := lit "2000-01-01";
       location := lit "NL" |} = Ok r ->
  foldM (add_item lib globals) (row, []) columns = Ok st ->
  let schedule :=
    Call (Schedule (lc_endpoint config ++ lit "event/v1/eventWsdl.wsdl") header
            {| studySubjectRef := ss_label;
               event_studyRef := the_study_identifier;
               eventDefinitionOID := the_event_oid;
               startDate := lit "2000-01-01";
               location := lit "NL" |}) in
  let post :=
    Call (DataPost (lc_endpoint config ++ lit "data/v1/dataWsdl.wsdl")
            (submit_data (lc_user config) (lc_password config) the_study_oid
               (subject_xml ss_oid the_event_oid the_form_oid
                  the_item_group_oid (snd st)))) in
  exists outcome after,
    submit_subject lib remote globals config columns header n row t =
      (outcome,
       t2 ++ [Log INFO (MsgGotOid ss_oid); schedule;
              Log INFO (MsgScheduleCode (result r))] ++
         (if bool_decide (result r = lit "Fail")
          then [Log WARNING (MsgNonSuccess (error r))] else []) ++
         [Log INFO (MsgStartingUpload ss_label); post] ++ after)
    /\ (after = [] \/ exists status, after = [Log INFO (MsgUploadStatus status)]).
Proof.
  intros Hlabel Hgender Hres Hschedule Hitems schedule post.
  pose proof (submit_subject_run lib remote globals _ _ _ _ _ _ _
                study_oid_bound study_identifier_bound event_oid_bound
                form_oid_bound item_group_oid_bound identifier_colname_bound
                gender_colname_bound config columns header n row t
                ss_label ss_gender ss_oid t2 r st Hlabel Hgender Hres
                Hschedule Hitems) as Hrun.
  cbv zeta in Hrun. rewrite Hrun.
  unfold scheduled, schedule_request, event_wsdl, data_url, payload, pystr_eqb.
  destruct (data_post remote _ _ _) as [resp|e].
  - eexists _, _. split; [|right; eauto].
    f_equal. rewrite <- !app_assoc. cbn [app]. reflexivity.
  - eexists _, _. split; [|left; reflexivity].
    f_equal. rewrite <- !app_assoc. cbn [app]. reflexivity.
Qed.

(** (X15) A failing post ends the batch. The post to the data service is not
    guarded: when it raises at a record, the loop ends with that
    exception right after the post call, the later records are not
    processed and the failure log is lost. *)
Theorem transport_failure_ends_the_batch config columns header (row : Row)
    rows n failed t ss_label ss_gender exc :
  answering remote ->
  row_item row the_identifier_colname = Ok ss_label ->
  row_item row the_gender_colname = Ok ss_gender ->
  (forall c, c ∈ columns -> c ∈ map fst row) ->
  (forall t0 url body,
      data_post remote (t0 ++ [Log INFO (MsgStartingUpload ss_label)]) url body
      = Raise exc) ->
  exists new body,
    iterrows_loop lib remote globals config columns header (row :: rows) n
      failed t = (Raise exc, t ++ new)
    /\ upload_labels new = [ss_label]
    /\ count is_data_post new = 1%nat
    /\ last new =
       Some (Call (DataPost (lc_endpoint config ++ lit "data/v1/dataWsdl.wsdl")
                     body)).
Proof.
  intros Hanswering Hlabel Hgender Hcolumns Hpost.
  destruct (resolver_total remote (lc_endpoint config) (lc_user config)
              (lc_password config) the_study_identifier ss_label ss_gender
              false
              (t ++ [Log INFO (MsgIteration n); Log INFO (MsgAdding ss_label)])
              Hanswering) as (oid & rnew & Hres & Hquiet).
  destruct (upload_subject_posted lib remote globals _ _ _ _ _ _ _ _
              study_oid_bound study_identifier_bound event_oid_bound
              form_oid_bound item_group_oid_bound identifier_colname_bound
              gender_colname_bound item_prefix_bound config columns header n
              row failed t ss_label ss_gender oid rnew Hanswering Hlabel
              Hgender Hcolumns Hres Hquiet)
    as (before & items & Hbefore & _ & Hrun).
  cbv zeta in Hrun. rewrite Hpost in Hrun.
  cbn [iterrows_loop]. rewrite (bind_Raise _ _ _ _ _ Hrun).
  eexists _, _. split; [reflexivity|].
  destruct Hbefore as [Hcount Hlabels].
  split; [|split].
  - rewrite upload_labels_app, Hlabels. reflexivity.
  - rewrite count_app, Hcount. reflexivity.
  - change (before ++ [?a; ?b]) with (before ++ [a] ++ [b]).
    rewrite app_assoc, last_snoc. reflexivity.
Qed.

(** A record that was posted: what [submit_subject] added when it
    returned. *)
Lemma submit_subject_ok config columns header n (row : Row) t ss_label
    response_text t1 :
  submit_subject lib remote globals config columns header n row t =
    (Ok (ss_label, response_text), t1) ->
  exists new,
    t1 = t ++ new
    /\ row_item row the_identifier_colname = Ok ss_label
    /\ upload_labels new = [ss_label]
    /\ count is_data_post new = 1%nat.
Proof.
  unfold submit_subject, global_var.
  rewrite identifier_colname_bound, study_identifier_bound,
    gender_colname_bound, event_oid_bound, form_oid_bound,
    item_group_oid_bound, study_oid_bound.
  py_seq.
  destruct (row_item row the_identifier_colname) as [l|e]; [|intros [=]].
  py_seq.
  destruct (row_item row the_gender_colname) as [g|e]; [|intros [=]].
  rewrite ?bind_assoc, bind_cases.
  destruct (resolver_quiet remote (lc_endpoint config) (lc_user config)
              (lc_password config) the_study_identifier l g false
              (t ++ [Log INFO (MsgIteration n)] ++ [Log INFO (MsgAdding l)]))
    as (rnew & Hsnd & [Hcount Hlabels]).
  rewrite <- !app_assoc.
  destruct (get_lc_ss_oid _ _ _ _ _ _ _ _ _) as [[oid|e] t2];
    cbn [snd] in Hsnd; subst t2; [|intros [=]].
  py_seq. rewrite ?bind_assoc, run_perform.
  destruct (service_schedule _ _ _ _ _) as [r|e]; [|intros [=]].
  py_seq.
  destruct (pystr_eqb (result r) (lit "Fail"));
    py_seq;
    (destruct (foldM _ _ _) as [st|e]; [|intros [=]]);
    py_seq; rewrite ?bind_assoc, run_perform;
    (destruct (data_post _ _ _ _) as [resp|e]; [|intros [=]]);
    py_seq; unfold ret; intros [= <- _ <-];
    (eexists; split; [rewrite <- !app_assoc; reflexivity|]);
    (split; [reflexivity|]);
    rewrite !upload_labels_app, !count_app, Hcount, Hlabels;
    done.
Qed.

Lemma interpret_response_ok ss_label response_text failed t failed' t' :
  interpret_response lib ss_label response_text failed t = (Ok failed', t') ->
  exists new extra,
    t' = t ++ new
    /\ quiet new
    /\ failed' = failed ++ extra
    /\ (extra = [] \/
        exists e, extra = [{| failed_subject := ss_label; failed_error := e |}]).
Proof.
  destruct (success_marker (find_all lib response_text (lit "result"))) eqn:Hs.
  - rewrite (interpret_success lib ss_label response_text failed t Hs).
    intros [= <- <-]. eexists _, [].
    split; [reflexivity|]. split; [done|].
    split; [now rewrite app_nil_r|now left].
  - destruct (find_all lib response_text (lit "error")) as [|e0 es] eqn:He.
    + now rewrite (interpret_neither lib ss_label response_text failed t Hs He).
    + rewrite (interpret_error lib ss_label response_text failed t e0 es Hs He).
      intros [= <- <-]. eexists _, _.
      split; [reflexivity|]. split; [done|]. split; [reflexivity|]. eauto.
Qed.

(** A loop that returned: every row was posted once, in order, and the
    failure log grew by records of the rows. *)
Lemma iterrows_loop_ok config columns header rows :
  forall n failed t failed' t',
    iterrows_loop lib remote globals config columns header rows n failed t =
      (Ok failed', t') ->
    exists new extra,
      t' = t ++ new
      /\ failed' = failed ++ extra
      /\ upload_labels new = map (row_label the_identifier_colname) rows
      /\ count is_data_post new = length rows
      /\ sublist (map failed_subject extra)
                 (map (row_label the_identifier_colname) rows).
Proof.
  induction rows as [|row rows IH]; intros n failed t failed' t'.
  - cbn [iterrows_loop]. unfold ret. intros [= <- <-].
    exists [], []. rewrite !app_nil_r. done.
  - cbn [iterrows_loop]. unfold upload_subject.
    rewrite bind_assoc, bind_cases.
    destruct (submit_subject _ _ _ _ _ _ _ _ _) as [[[l txt]|e] t1] eqn:Hsubmit;
      [|intros [=]].
    destruct (submit_subject_ok _ _ _ _ _ _ _ _ _ Hsubmit)
      as (new1 & -> & Hl & Hlabels1 & Hcount1).
    cbn [fst snd]. rewrite bind_cases.
    destruct (interpret_response _ _ _ _ _) as [[failed1|e] t2] eqn:Hinterpret;
      [|intros [=]].
    destruct (interpret_response_ok _ _ _ _ _ _ Hinterpret)
      as (new2 & extra1 & -> & [Hcount2 Hlabels2] & -> & Hextra1).
    intros Hloop.
    destruct (IH _ _ _ _ _ Hloop)
      as (new3 & extra2 & -> & -> & Hlabels3 & Hcount3 & Hsub).
    exists (new1 ++ new2 ++ new3), (extra1 ++ extra2).
    split; [now rewrite <- !app_assoc|].
    split; [now rewrite <- !app_assoc|].
    assert (Hrow : row_label the_identifier_colname row = l).
    { unfold row_label. now rewrite Hl. }
    split; [|split].
    + rewrite !upload_labels_app, Hlabels1, Hlabels2, Hlabels3. cbn [map app].
      now rewrite Hrow.
    + rewrite !count_app, Hcount1, Hcount2, Hcount3. reflexivity.
    + cbn [map]. rewrite Hrow, map_app.
      destruct Hextra1 as [->|[e ->]]; cbn [map app].
      * now apply sublist_cons.
      * now apply sublist_skip.
Qed.

Lemma get_sparql_dataframe_ok query auth_required t df t1 :
  get_sparql_dataframe lib remote environ query auth_required t =
    (Ok df, t1) ->
  exists new, t1 = t ++ new /\ quiet new.
Proof.
  unfold get_sparql_dataframe. rewrite run_perform.
  destruct (sparql_endpoint_post _ _ _ _ _) as [r|e]; [|intros [=]].
  rewrite run_logger, run_lift.
  destruct (sparql_json r) as [results|e]; [|intros [=]].
  unfold lift. intros [= _ <-].
  eexists. split; [rewrite <- !app_assoc; reflexivity|done].
Qed.

(** (X16) What a normal return means. When [upload_to_lc] returns, the gate was
    on, the query delivered a frame with at least one row, and every row
    of the frame was posted to the data service exactly once, in row
    order and announced under its identifier. The failure log names only
    identifiers of those rows, in their order, so the number of failures
    is at most the number of rows; the run ends with the two totals, and
    a warning with the failure log comes before them exactly when the
    log is not empty. *)
Theorem normal_return_posts_every_row config t u t' :
  upload_to_lc lib remote environ globals config t = (Ok u, t') ->
  exists q df failed events,
    perform_query config = true
    /\ globals !! "query"%string = Some q
    /\ fst (get_sparql_dataframe lib remote environ q true
              (t ++ [Log INFO (MsgRetrieving (sparql_endpoint config))])) = Ok df
    /\ df_len df <> 0%nat
    /\ t' = t ++ events ++
            (match failed with
             | [] => []
             | _ :: _ => [Log WARNING (MsgFailedSubjects failed)]
             end) ++
            [Log INFO (MsgTotalExpected (df_len df));
             Log INFO (MsgNumFailed (length failed))]
    /\ count is_data_post events = df_len df
    /\ upload_labels events =
       map (row_label the_identifier_colname)
           (df_iterrows (df_rename df (alternative_item_oids config)))
    /\ sublist (map failed_subject failed) (upload_labels events)
    /\ (length failed <= df_len df)%nat.
Proof.
  unfold upload_to_lc.
  destruct (perform_query config) eqn:Hon; cbn [negb].
  2:{ rewrite bind_assoc, run_logger. unfold sys_exit. now rewrite run_raise. }
  rewrite run_ret, run_logger. unfold global_var at 1.
  destruct (globals !! "query"%string) as [q|] eqn:Hq;
    [|now rewrite run_lift].
  rewrite run_lift. cbv beta iota. rewrite bind_cases.
  destruct (get_sparql_dataframe _ _ _ _ _ _) as [[df|e] t1] eqn:Hdf;
    [|intros [=]].
  destruct (get_sparql_dataframe_ok _ _ _ _ _ Hdf) as (new0 & -> & Hq0).
  destruct (df_len df =? 0)%nat eqn:Hlen.
  { rewrite bind_assoc, run_logger. unfold sys_exit. now rewrite run_raise. }
  apply Nat.eqb_neq in Hlen.
  rewrite run_ret, !run_logger. rewrite bind_cases.
  destruct (iterrows_loop _ _ _ _ _ _ _ _ _ _) as [[failed|e] t2] eqn:Hloop;
    [|intros [=]].
  destruct (iterrows_loop_ok _ _ _ _ _ _ _ _ _ Hloop)
    as (new & extra & -> & Hfailed & Hlabels & Hcount & Hsub).
  cbn [app] in Hfailed. subst extra.
  set (rows := df_iterrows (df_rename df (alternative_item_oids config))) in *.
  assert (Hrows : length rows = df_len df).
  { unfold rows. now rewrite df_iterrows_length. }
  destruct Hq0 as [Hcount0 Hlabels0].
  intros Hend.
  exists q, df, failed,
    ([Log INFO (MsgRetrieving (sparql_endpoint config))] ++ new0 ++
     [Log INFO (MsgReceivedRows (df_len df));
      Log INFO (MsgHaveColumns
                  (columns_of (df_rename df (alternative_item_oids config))))] ++
     new).
  assert (Hevents :
    upload_labels
      ([Log INFO (MsgRetrieving (sparql_endpoint config))] ++ new0 ++
       [Log INFO (MsgReceivedRows (df_len df));
        Log INFO (MsgHaveColumns
                    (columns_of (df_rename df (alternative_item_oids config))))] ++
       new) = map (row_label the_identifier_colname) rows).
  { rewrite !upload_labels_app, Hlabels0, Hlabels. reflexivity. }
  split; [reflexivity|]. split; [reflexivity|]. split; [now rewrite Hdf|].
  split; [exact Hlen|]. split.
  { revert Hend. destruct failed as [|f failed].
    - rewrite run_ret, run_logger. unfold logger. intros [= _ <-].
      cbn [df_rename df_len]. now rewrite <- !app_assoc.
    - rewrite !run_logger. unfold logger. intros [= _ <-].
      cbn [df_rename df_len]. now rewrite <- !app_assoc. }
  split.
  { rewrite !count_app, Hcount0, Hcount, Hrows. reflexivity. }
  split; [exact Hevents|]. split.
  { rewrite Hevents. exact Hsub. }
  apply sublist_length in Hsub. rewrite !length_map in Hsub. lia.
Qed.

End BoundNames.

End OrchestratorFurther.

(** ** The identity resolver: a positive answer without an element *)

(** (X3) A check that answers ["Success"] with no raw element ends the
    resolution with the [IndexError] of the [pop] from the empty list,
    after the one check call; the label is neither created nor looked up
    again. *)
Theorem success_without_element_is_index_error remote lc_endpoint lc_user
    lc_password study_identifier ss_label ss_gender rerun t r :
  service_isStudySubject remote (t ++ [Log INFO (MsgTryingOid ss_label)])
    (lc_endpoint ++ lit "study/v1/studySubjectWsdl.wsdl")
    {| username := lc_user; password := lc_password |}
    {| label := ss_label; enrollmentDate := lit "1900-01-01";
       subject_gender := None; studyRef := study_identifier |} = Ok r ->
  result r = lit "Success" ->
  raw_elements r = [] ->
  get_lc_ss_oid remote lc_endpoint lc_user lc_password study_identifier
    ss_label ss_gender rerun t =
  (Raise IndexError,
   t ++ [Log INFO (MsgTryingOid ss_label);
         Call (IsStudySubject
                 (lc_endpoint ++ lit "study/v1/studySubjectWsdl.wsdl")
                 {| username := lc_user; password := lc_password |}
                 {| label := ss_label; enrollmentDate := lit "1900-01-01";
                    subject_gender := None; studyRef := study_identifier |})]).
Proof.
  intros Hcheck Hres Hraw. unfold get_lc_ss_oid.
  destruct rerun; [|remember 1%nat as one eqn:Hone];
    cbn [get_lc_ss_oid_rec];
    rewrite run_logger; unfold client_isStudySubject; rewrite run_perform;
    rewrite Hcheck, (pystr_eqb_true _ _ Hres), Hraw; unfold pop_text;
    cbn [last]; rewrite run_raise; now trace_norm.
Qed.

(** ** The script entry point *)

Lemma df_rename_empty df : df_rename df ∅ = df.
Proof.
  destruct df as [cols n]. unfold df_rename. cbn [df_columns df_len]. f_equal.
  induction cols as [|[name s] cols IH]; [reflexivity|].
  cbn [map fst snd]. rewrite lookup_empty. cbn [default]. now rewrite IH.
Qed.

(** The options the script reads from the section [generic_list], in the
    order it reads them. *)
Definition generic_list_options : list string :=
  ["study_oid"; "study_identifier"; "event_oid"; "form_oid";
   "item_group_oid"; "identifier_colname"; "gender_colname"; "item_prefix";
   "query"]%string.

(** Membership in a list that is written out. *)
Ltac in_list :=
  apply list_elem_of_In; cbn; repeat first [left; reflexivity | right].

Section ScriptFurther.

Variable lib : PyLib.
Variable remote : Remote.
Variable environ : gmap string pystr.
Variable upload_config : gmap string (gmap string pystr).

(** (X17) The script with every setting present. It is [upload_to_lc] on a
    configuration built from the environment and the options, with the
    gate on and no renaming of columns, and run with the nine
    module-level names bound to the options of [generic_list]: the names
    [upload_to_lc] reads hold the values of the configuration, and the
    frame is used under the column names of the query. *)
Theorem script_binds_names_from_options options endpoint the_lc_endpoint
    the_lc_user the_lc_password the_study_oid the_study_identifier
    the_event_oid the_form_oid the_item_group_oid the_identifier_colname
    the_gender_colname the_item_prefix the_query t :
  environ !! "SPARQL_QUERY_ENDPOINT"%string = Some endpoint ->
  environ !! "LC_ENDPOINT"%string = Some the_lc_endpoint ->
  environ !! "LC_USER"%string = Some the_lc_user ->
  environ !! "LC_PASSWORD"%string = Some the_lc_password ->
  upload_config !! "generic_list"%string = Some options ->
  options !! "study_oid"%string = Some the_study_oid ->
  options !! "study_identifier"%string = Some the_study_identifier ->
  options !! "event_oid"%string = Some the_event_oid ->
  options !! "form_oid"%string = Some the_form_oid ->
  options !! "item_group_oid"%string = Some the_item_group_oid ->
  options !! "identifier_colname"%string = Some the_identifier_colname ->
  options !! "gender_colname"%string = Some the_gender_colname ->
  options !! "item_prefix"%string = Some the_item_prefix ->
  options !! "query"%string = Some the_query ->
  let names :=
    module_globals the_study_oid the_study_identifier the_event_oid
      the_form_oid the_item_group_oid the_identifier_colname
      the_gender_colname the_item_prefix the_query in
  let config :=
    {| sparql_endpoint := endpoint;
       query := the_query;
       lc_endpoint := the_lc_endpoint;
       lc_user := the_lc_user;
       lc_password := the_lc_password;
       study_oid := the_study_oid;
       study_identifier := the_study_identifier;
       event_oid := the_event_oid;
       form_oid := the_form_oid;
       item_group_oid := the_item_group_oid;
       identifier_colname := the_identifier_colname;
       gender_colname := the_gender_colname;
       item_prefix := the_item_prefix;
       alternative_item_oids := ∅;
       perform_query := true |} in
  script_body lib remote environ upload_config t =
    upload_to_lc lib remote environ names config t
  /\ global_var names "study_oid" = Ok (study_oid config)
  /\ global_var names "study_identifier" = Ok (study_identifier config)
  /\ global_var names "event_oid" = Ok (event_oid config)
  /\ global_var names "form_oid" = Ok (form_oid config)
  /\ global_var names "item_group_oid" = Ok (item_group_oid config)
  /\ global_var names "identifier_colname" = Ok (identifier_colname config)
  /\ global_var names "gender_colname" = Ok (gender_colname config)
  /\ global_var names "item_prefix" = Ok (item_prefix config)
  /\ global_var names "query" = Ok (query config)
  /\ (forall df, df_rename df (alternative_item_oids config) = df)
  /\ (forall out,
        script_main lib remote environ upload_config t = out ->
        (lit "Finished sync!" ∈ fst out <->
         exists t', upload_to_lc lib remote environ names config t = (Ok tt, t'))).
Proof.
  intros Hendpoint Hlc_endpoint Hlc_user Hlc_password Hsection
    H1 H2 H3 H4 H5 H6 H7 H8 H9 names config.
  assert (Hbody : script_body lib remote environ upload_config t =
                  upload_to_lc lib remote environ names config t).
  { unfold script_body, os_environ, config_item.
    rewrite Hendpoint, Hlc_endpoint, Hlc_user, Hlc_password, Hsection,
      H1, H2, H3, H4, H5, H6, H7, H8, H9.
    cbn [LCConfig_init]. now py_seq. }
  split; [exact Hbody|].
  do 9 (split; [reflexivity|]).
  split; [intros df; apply df_rename_empty|].
  intros out <-. unfold script_main. rewrite Hbody. cbn [fst].
  destruct (upload_to_lc lib remote environ names config t) as [[[]|e] t'].
  - cbn [fst]. split; [eauto|]. intros _. right. now left.
  - cbn [fst]. split.
    + intros Hin. apply list_elem_of_singleton in Hin. discriminate.
    + intros [t0 [=]].
Qed.

(** (X18) A missing setting stops the script before anything is sent. Without
    the environment variable [SPARQL_QUERY_ENDPOINT], without the section
    [generic_list], or without one of its nine options, the script ends
    with the [KeyError] of the missing name; with these present and one of
    [LC_ENDPOINT], [LC_USER], [LC_PASSWORD] unset, the configuration is
    refused with a [ValueError]. In each case the history is unchanged and
    only ["Starting sync!"] is printed. *)
Theorem script_stops_on_missing_setting t :
  let stopped e :=
    script_main lib remote environ upload_config t =
    ([lit "Starting sync!"], (Raise e, t)) in
  (environ !! "SPARQL_QUERY_ENDPOINT"%string = None ->
   stopped (KeyError (lit "SPARQL_QUERY_ENDPOINT")))
  /\ (forall endpoint,
        environ !! "SPARQL_QUERY_ENDPOINT"%string = Some endpoint ->
        (upload_config !! "generic_list"%string = None ->
         stopped (KeyError (lit "generic_list")))
        /\ (forall options,
              upload_config !! "generic_list"%string = Some options ->
              ((exists name, name ∈ generic_list_options
                             /\ options !! name = None) ->
               exists missing,
                 missing ∈ generic_list_options
                 /\ options !! missing = None
                 /\ stopped (KeyError (lit missing)))
              /\ ((forall name, name ∈ generic_list_options ->
                                is_Some (options !! name)) ->
                  environ !! "LC_ENDPOINT"%string = None
                  \/ environ !! "LC_USER"%string = None
                  \/ environ !! "LC_PASSWORD"%string = None ->
                  stopped ValueError))).
Proof.
  intros stopped. unfold stopped, script_main, script_body, os_environ,
    config_item.
  split.
  { intros ->. now rewrite run_lift. }
  intros endpoint ->. rewrite run_lift. cbv beta iota.
  split.
  { intros ->. now rewrite run_lift. }
  intros options ->.
  split.
  - intros (name & Hname & Hnone).
    unfold generic_list_options in *.
    repeat match goal with
      | |- context [options !! ?k] =>
          lazymatch goal with
          | H : options !! k = _ |- _ => fail
          | _ => idtac
          end;
          let H := fresh "Hopt" in
          destruct (options !! k) eqn:H;
          [rewrite run_lift; cbv beta iota
          |exists k; split; [in_list|]; split; [exact H|];
           now rewrite run_lift]
      end.
    exfalso.
    repeat (apply elem_of_cons in Hname as [->|Hname]; [congruence|]).
    now apply elem_of_nil in Hname.
  - intros Hall Hunset.
    assert (Hsome : forall name, name ∈ generic_list_options ->
                                 exists v, options !! name = Some v).
    { intros name Hname. destruct (Hall name Hname) as [v Hv]. eauto. }
    unfold generic_list_options in Hsome.
    destruct (Hsome "study_oid"%string) as [v1 ->]; [in_list|].
    destruct (Hsome "study_identifier"%string) as [v2 ->]; [in_list|].
    destruct (Hsome "event_oid"%string) as [v3 ->]; [in_list|].
    destruct (Hsome "form_oid"%string) as [v4 ->]; [in_list|].
    destruct (Hsome "item_group_oid"%string) as [v5 ->]; [in_list|].
    destruct (Hsome "identifier_colname"%string) as [v6 ->]; [in_list|].
    destruct (Hsome "gender_colname"%string) as [v7 ->]; [in_list|].
    destruct (Hsome "item_prefix"%string) as [v8 ->]; [in_list|].
    destruct (Hsome "query"%string) as [v9 ->]; [in_list|].
    py_seq.
    assert (Hinit :
      LCConfig_init (Some endpoint) (Some v9)
        (environ !! "LC_ENDPOINT"%string) (environ !! "LC_USER"%string)
        (environ !! "LC_PASSWORD"%string) (Some v1) (Some v2) (Some v3)
        (Some v4) (Some v5) (Some v6) (Some v7) (Some v8) None true =
      Raise ValueError).
    { unfold LCConfig_init.
      destruct Hunset as [->|[->| ->]]; [reflexivity| |].
      - now destruct (environ !! "LC_ENDPOINT"%string).
      - now destruct (environ !! "LC_ENDPOINT"%string),
                     (environ !! "LC_USER"%string). }
    rewrite Hinit. reflexivity.
Qed.

End ScriptFurther.

(** * Concrete runs of the further properties *)

Module Scenario.

(** A destination that cannot be reached: every identity call fails in
    transport. *)
Definition offline : Remote :=
  {| sparql_endpoint_post := sparql_endpoint_post Reference.enrolling;
     service_isStudySubject := fun _ _ _ _ =>
       Raise (TransportError (lit "connection refused"));
     service_create := fun _ _ _ _ =>
       Raise (TransportError (lit "connection refused"));
     service_schedule := service_schedule Reference.enrolling;
     data_post := data_post Reference.enrolling;
     today := today Reference.enrolling |}.

(** A destination that knows no label and whose create call times out. *)
Definition create_times_out : Remote :=
  {| sparql_endpoint_post := sparql_endpoint_post Reference.enrolling;
     service_isStudySubject := fun _ _ _ _ =>
       Ok (Reference.fail_ret "unknown subject");
     service_create := fun _ _ _ _ => Raise (TransportError (lit "timed out"));
     service_schedule := service_schedule Reference.enrolling;
     data_post := data_post Reference.enrolling;
     today := today Reference.enrolling |}.

(** A destination whose check answers ["Success"] without an element. *)
Definition hollow : Remote :=
  {| sparql_endpoint_post := sparql_endpoint_post Reference.enrolling;
     service_isStudySubject := fun _ _ _ _ => Ok Reference.ok_ret;
     service_create := service_create Reference.enrolling;
     service_schedule := service_schedule Reference.enrolling;
     data_post := data_post Reference.enrolling;
     today := today Reference.enrolling |}.

(** The clinic of the reference world with an event service that refuses
    every event. *)
Definition unscheduled : Remote :=
  let clinic := Reference.clinic Reference.three_patients in
  {| sparql_endpoint_post := sparql_endpoint_post clinic;
     service_isStudySubject := service_isStudySubject clinic;
     service_create := service_create clinic;
     service_schedule := fun _ _ _ _ => Ok (Reference.fail_ret "no such event");
     data_post := data_post clinic;
     today := today clinic |}.

(** The clinic of the reference world with a data service that times
    out. *)
Definition data_times_out : Remote :=
  let clinic := Reference.clinic Reference.three_patients in
  {| sparql_endpoint_post := sparql_endpoint_post clinic;
     service_isStudySubject := service_isStudySubject clinic;
     service_create := service_create clinic;
     service_schedule := service_schedule clinic;
     data_post := fun _ _ _ => Raise (TransportError (lit "timed out"));
     today := today clinic |}.


(** A result whose gender is a plain literal. *)
Definition text_gender_patients : SparqlResults :=
  {| head_vars := [lit "id"; lit "gender"];
     bindings :=
       [list_to_map [(lit "id", Reference.literal "P1" None);
                     (lit "gender", Reference.literal "1" None)]] |}.

(** A file system with one query file of two lines. *)
Definition one_file (file_name : pystr) : pyresult pystr :=
  if bool_decide (file_name = lit "query.rq")
  then Ok (lit "SELECT *" ++ nl ++ lit "WHERE {}")
  else Raise ValueError.

(** The module-level names with an identifier column the query does not
    deliver. *)
Definition misnamed_globals : gmap string pystr :=
  <["identifier_colname"%string := lit "patient"]> Reference.script_globals.

(** The environment and the options of a station. *)
Definition station_environ : gmap string pystr :=
  list_to_map
    [("SPARQL_QUERY_ENDPOINT", lit "http://fair/sparql");
     ("LC_ENDPOINT", lit "http://lc/ws/"); ("LC_USER", lit "user");
     ("LC_PASSWORD", lit "hash")]%string.

Definition station_options : gmap string pystr := Reference.script_globals.

Definition station_config : gmap string (gmap string pystr) :=
  {[ "generic_list"%string := station_options ]}.

(** A row with a name that is not ASCII and a numeric gender. *)
Definition jose : Row :=
  [(lit "id", PStr (lit "P1")); (lit "gender", PInt 1);
   (lit "name", PStr (lit "Jos" ++ [233%N])); (lit "note", PNone)].

End Scenario.


Lemma text_gender_distinct_vars :
  NoDup (head_vars Scenario.text_gender_patients).
Proof. refine (bool_decide_unpack _ _). vm_compute. exact I. Qed.

(** The unreachable destination: the resolution ends with the transport
    error after the check; with a create that times out, after the
    create. *)
Lemma resolver_transport_failure_witness :
  get_lc_ss_oid Scenario.offline (lit "http://lc/ws/") (lit "user")
    (lit "hash") (lit "STUDY") (PStr (lit "P1")) (PInt 1) false [] =
  (Raise (TransportError (lit "connection refused")),
   [Log INFO (MsgTryingOid (PStr (lit "P1")));
    check_call (lit "http://lc/ws/") (lit "user") (lit "hash") (lit "STUDY")
      (PStr (lit "P1"))])
  /\ fst (get_lc_ss_oid Scenario.create_times_out (lit "http://lc/ws/")
            (lit "user") (lit "hash") (lit "STUDY") (PStr (lit "P1")) (PInt 1)
            false []) =
     Raise (TransportError (lit "timed out")).
Proof.
  split.
  - exact (proj1 (resolver_transport_failure_propagates Scenario.offline
                    (lit "http://lc/ws/") (lit "user") (lit "hash")
                    (lit "STUDY") (PStr (lit "P1")) (PInt 1) []
                    (TransportError (lit "connection refused")))
                 false eq_refl).
  - rewrite (proj2 (resolver_transport_failure_propagates
                      Scenario.create_times_out
                      (lit "http://lc/ws/") (lit "user") (lit "hash")
                      (lit "STUDY") (PStr (lit "P1")) (PInt 1) []
                      (TransportError (lit "timed out")))
                   (Reference.fail_ret "unknown subject")).
    + reflexivity.
    + reflexivity.
    + vm_compute. discriminate.
    + reflexivity.
Defined.

(** A positive check without an element. *)
Lemma success_without_element_witness :
  fst (get_lc_ss_oid Scenario.hollow (lit "http://lc/ws/") (lit "user")
         (lit "hash") (lit "STUDY") (PStr (lit "P1")) (PInt 1) false []) =
  Raise IndexError.
Proof.
  rewrite (success_without_element_is_index_error Scenario.hollow
             (lit "http://lc/ws/") (lit "user") (lit "hash") (lit "STUDY")
             (PStr (lit "P1")) (PInt 1) false [] Reference.ok_ret);
    reflexivity.
Defined.





(** The query file of two lines is sent on one line. *)
Lemma query_from_file_witness :
  (exists new,
     snd (query_from_file Reference.lib
            (Reference.clinic Reference.three_patients) ∅ Scenario.one_file
            (lit "query.rq") []) =
     Call (SparqlPost None (Some (None, None)) (lit "SELECT * WHERE {}")) :: new)
  /\ query_from_file Reference.lib
       (Reference.clinic Reference.three_patients) ∅ Scenario.one_file
       (lit "missing.rq") [] = (Raise ValueError, []).
Proof.
  destruct (query_from_file_sends_one_line Reference.lib
              (Reference.clinic Reference.three_patients) ∅ Scenario.one_file
              (lit "query.rq") []) as [_ Hread].
  destruct (Hread (lit "SELECT *" ++ nl ++ lit "WHERE {}") eq_refl)
    as (_ & _ & _ & _ & new & Hnew).
  split.
  - exists new. exact Hnew.
  - apply (query_from_file_sends_one_line Reference.lib
             (Reference.clinic Reference.three_patients) ∅ Scenario.one_file
             (lit "missing.rq") []).
    reflexivity.
Defined.


(** A gender delivered as the text ["1"] is sent as that text. *)
Lemma text_gender_witness : gender_code (PStr (lit "1")) = PStr (lit "1").
Proof.
  destruct (frame_of_results Reference.lib Scenario.text_gender_patients
              text_gender_distinct_vars) as (df & Hrun & _ & _ & Hget).
  apply (text_gender_is_sent_unchanged Reference.lib
           Scenario.text_gender_patients df (lit "gender")
           (column_of_results Reference.lib Scenario.text_gender_patients
              (lit "gender"))
           (PStr (lit "1")) text_gender_distinct_vars Hrun).
  - apply Hget. apply list_elem_of_In. vm_compute. auto.
  - left. vm_compute. reflexivity.
  - apply list_elem_of_In. vm_compute. auto.
Defined.

(** The run over the three patients queries once, first. *)
Lemma one_query_witness :
  exists rest,
    snd (upload_to_lc Reference.lib (Reference.clinic Reference.three_patients)
           ∅ Reference.script_globals Reference.config []) =
    [Log INFO (MsgRetrieving (lit "http://fair/sparql"));
     Call (SparqlPost None (Some (None, None)) (lit "SELECT"))] ++ rest
    /\ count is_query rest = 0%nat.
Proof.
  exact (one_query_to_environment_endpoint Reference.lib
           (Reference.clinic Reference.three_patients) ∅
           Reference.script_globals Reference.config (lit "SELECT") []
           eq_refl eq_refl).
Defined.

(** The items of a row: no element for the identifier and for the
    missing note, the gender as [str] prints it, the name
    transliterated. *)
Lemma items_in_column_order_witness :
  exists row' : Row,
    foldM (add_item Reference.lib Reference.script_globals)
      (Scenario.jose, [])
      [lit "id"; lit "gender"; lit "name"; lit "note"] =
    Ok (row',
        lit "<ItemData ItemOID=" ++ quoted (lit "I_gender") ++
        lit " Value=" ++ quoted (lit "1") ++ lit "/>" ++ nl ++
        lit "<ItemData ItemOID=" ++ quoted (lit "I_name") ++
        lit " Value=" ++ quoted (lit "Jose") ++ lit "/>" ++ nl).
Proof.
  destruct (items_in_column_order Reference.lib Reference.script_globals
              (lit "id") (lit "I_") eq_refl eq_refl
              [lit "id"; lit "gender"; lit "name"; lit "note"] Scenario.jose)
    as (row' & Hrun & _).
  - refine (bool_decide_unpack _ _). vm_compute. exact I.
  - intros name Hname. exact Hname.
  - exists row'. rewrite Hrun. vm_compute. reflexivity.
Defined.

(** The identifier column is named [patient], and the query delivers
    [id]: the run ends with the [KeyError] at the first record. *)
Lemma missing_column_witness :
  exists t',
    upload_to_lc Reference.lib (Reference.clinic Reference.three_patients) ∅
      Scenario.misnamed_globals Reference.config [] =
    (Raise (KeyError (lit "patient")), t')
    /\ count is_destination_call t' = 0%nat.
Proof.
  destruct (missing_column_is_a_key_error Reference.lib
              (Reference.clinic Reference.three_patients) ∅
              Scenario.misnamed_globals (lit "STUDY") (lit "patient")
              (lit "gender") eq_refl eq_refl eq_refl Reference.config
              (lit "SELECT") Reference.frame []
              (snd (get_sparql_dataframe Reference.lib
                      (Reference.clinic Reference.three_patients) ∅
                      (lit "SELECT") true
                      [Log INFO (MsgRetrieving (lit "http://fair/sparql"))])))
    as [Hmissing _].
  - reflexivity.
  - reflexivity.
  - vm_compute. reflexivity.
  - vm_compute. discriminate.
  - eexists. split.
    + apply Hmissing. vm_compute. intros Hin.
      repeat (apply elem_of_cons in Hin as [Hin|Hin]; [discriminate Hin|]).
      now apply elem_of_nil in Hin.
    + vm_compute. reflexivity.
Defined.

(** The event service refuses the event of [P1]: the warning is logged
    and the record is posted. *)
Lemma schedule_result_witness :
  let run :=
    submit_subject Reference.lib Scenario.unscheduled Reference.script_globals
      Reference.config (columns_of Reference.frame) Reference.header 1
      (nth 0 Reference.rows []) [] in
  fst run = Ok (PStr (lit "P1"), lit "<result>Success</result>")
  /\ Log WARNING (MsgNonSuccess (Some (lit "no such event"))) ∈ snd run
  /\ count is_data_post (snd run) = 1%nat.
Proof.
  intros run.
  pose (resolved :=
    get_lc_ss_oid Scenario.unscheduled (lit "http://lc/ws/") (lit "user")
      (lit "hash") (lit "STUDY") (PStr (lit "P1")) (PInt 1) false
      [Log INFO (MsgIteration 1); Log INFO (MsgAdding (PStr (lit "P1")))]).
  destruct (schedule_result_does_not_stop_upload Reference.lib
              Scenario.unscheduled Reference.script_globals
              (lit "S_1") (lit "STUDY") (lit "SE_1") (lit "F_1") (lit "IG_1")
              (lit "id") (lit "gender")
              eq_refl eq_refl eq_refl eq_refl eq_refl eq_refl eq_refl
              Reference.config (columns_of Reference.frame) Reference.header 1
              (nth 0 Reference.rows []) []
              (PStr (lit "P1")) (PInt 1) (lit "SS_P1") (snd resolved)
              (Reference.fail_ret "no such event")
              (match foldM (add_item Reference.lib Reference.script_globals)
                       (nth 0 Reference.rows [], [])
                       (columns_of Reference.frame) with
               | Ok st => st
               | Raise _ => ([], [])
               end))
    as (outcome & after & Hrun & _).
  - vm_compute. reflexivity.
  - vm_compute. reflexivity.
  - vm_compute. reflexivity.
  - reflexivity.
  - vm_compute. reflexivity.
  - clear Hrun. vm_compute.
    split; [reflexivity|]. split; [|reflexivity].
    apply list_elem_of_In. cbn. auto 20.
Defined.

Lemma data_times_out_answering : answering Scenario.data_times_out.
Proof.
  destruct (clinic_answering Reference.three_patients) as (H1 & H2 & H3).
  split; [exact H1|]. split; [exact H2|exact H3].
Qed.

(** The data service times out at the first of the three patients: the
    loop ends there, after one post. *)
Lemma transport_failure_witness :
  exists new,
    iterrows_loop Reference.lib Scenario.data_times_out
      Reference.script_globals Reference.config (columns_of Reference.frame)
      Reference.header Reference.rows 1 [] [] =
    (Raise (TransportError (lit "timed out")), new)
    /\ upload_labels new = [PStr (lit "P1")]
    /\ count is_data_post new = 1%nat.
Proof.
  destruct (transport_failure_ends_the_batch Reference.lib
              Scenario.data_times_out Reference.script_globals
              (lit "S_1") (lit "STUDY") (lit "SE_1") (lit "F_1") (lit "IG_1")
              (lit "id") (lit "gender") (lit "I_")
              eq_refl eq_refl eq_refl eq_refl eq_refl eq_refl eq_refl eq_refl
              Reference.config (columns_of Reference.frame) Reference.header
              (nth 0 Reference.rows [])
              [nth 1 Reference.rows []; nth 2 Reference.rows []] 1 [] []
              (PStr (lit "P1")) (PInt 1) (TransportError (lit "timed out"))
              data_times_out_answering)
    as (new & body & Hrun & Hlabels & Hcount & _).
  - vm_compute. reflexivity.
  - vm_compute. reflexivity.
  - intros c Hc. exact Hc.
  - reflexivity.
  - exists new. split; [exact Hrun|]. split; [exact Hlabels|exact Hcount].
Defined.

(** The run over the three patients returns: three posts, one failure,
    and the two totals at the end. *)
Lemma normal_return_witness :
  exists failed events,
    snd (upload_to_lc Reference.lib (Reference.clinic Reference.three_patients)
           ∅ Reference.script_globals Reference.config []) =
    events ++
      (match failed with
       | [] => []
       | _ :: _ => [Log WARNING (MsgFailedSubjects failed)]
       end) ++
      [Log INFO (MsgTotalExpected 3); Log INFO (MsgNumFailed (length failed))]
    /\ count is_data_post events = 3%nat
    /\ (length failed <= 3)%nat.
Proof.
  destruct (normal_return_posts_every_row Reference.lib
              (Reference.clinic Reference.three_patients) ∅
              Reference.script_globals
              (lit "S_1") (lit "STUDY") (lit "SE_1") (lit "F_1") (lit "IG_1")
              (lit "id") (lit "gender")
              eq_refl eq_refl eq_refl eq_refl eq_refl eq_refl eq_refl
              Reference.config [] tt
              (snd (upload_to_lc Reference.lib
                      (Reference.clinic Reference.three_patients) ∅
                      Reference.script_globals Reference.config [])))
    as (q & df & failed & events & _ & _ & Hdf & _ & Hrun & Hcount & _ & _ & Hle).
  - vm_compute. reflexivity.
  - assert (Hlen : df_len df = 3%nat).
    { vm_compute in Hdf. injection Hdf as <-. reflexivity. }
    exists failed, events. rewrite Hlen in *.
    split; [exact Hrun|]. split; [exact Hcount|exact Hle].
Defined.

(** The script of a station with every setting present. *)
Lemma script_binds_names_witness :
  script_body Reference.lib (Reference.clinic Reference.three_patients)
    Scenario.station_environ Scenario.station_config [] =
  upload_to_lc Reference.lib (Reference.clinic Reference.three_patients)
    Scenario.station_environ Reference.script_globals Reference.config [].
Proof.
  exact (proj1 (script_binds_names_from_options Reference.lib
                  (Reference.clinic Reference.three_patients)
                  Scenario.station_environ Scenario.station_config
                  Scenario.station_options
                  (lit "http://fair/sparql") (lit "http://lc/ws/") (lit "user")
                  (lit "hash") (lit "S_1") (lit "STUDY") (lit "SE_1")
                  (lit "F_1") (lit "IG_1") (lit "id") (lit "gender") (lit "I_")
                  (lit "SELECT") []
                  eq_refl eq_refl eq_refl eq_refl eq_refl eq_refl eq_refl
                  eq_refl eq_refl eq_refl eq_refl eq_refl eq_refl eq_refl)).
Defined.

(** The script in an empty environment, and in a station without the
    destination's address. *)
Lemma script_stops_witness :
  script_main Reference.lib (Reference.clinic Reference.three_patients) ∅
    Scenario.station_config [] =
  ([lit "Starting sync!"],
   (Raise (KeyError (lit "SPARQL_QUERY_ENDPOINT")), []))
  /\ script_main Reference.lib (Reference.clinic Reference.three_patients)
       (delete "LC_ENDPOINT"%string Scenario.station_environ)
       Scenario.station_config [] =
     ([lit "Starting sync!"], (Raise ValueError, [])).
Proof.
  split.
  - apply (script_stops_on_missing_setting Reference.lib
             (Reference.clinic Reference.three_patients) ∅
             Scenario.station_config []).
    reflexivity.
  - apply (script_stops_on_missing_setting Reference.lib
             (Reference.clinic Reference.three_patients)
             (delete "LC_ENDPOINT"%string Scenario.station_environ)
             Scenario.station_config [])
      with (endpoint := lit "http://fair/sparql")
           (options := Scenario.station_options).
    + reflexivity.
    + reflexivity.
    + intros name Hname. unfold generic_list_options in Hname.
      repeat (apply elem_of_cons in Hname as [->|Hname]; [now eexists|]).
      now apply elem_of_nil in Hname.
    + left. reflexivity.
Defined.

(** ** The configuration: no renaming of columns *)

(** (X19) A configuration that the constructor accepts renames no column. The
    constructor refuses every [alternative_item_oids] but [None], and
    [__init__] turns the [None] into the empty dictionary; so for every
    constructed configuration the renaming of [upload_to_lc] leaves the
    frame as the query delivered it, and the column names of the query
    are the item names of the payload. *)
Theorem constructed_config_keeps_column_names
    endpoint the_query the_lc_endpoint the_lc_user the_lc_password
    the_study_oid the_study_identifier the_event_oid the_form_oid
    the_item_group_oid the_identifier_colname the_gender_colname
    the_item_prefix alternative gate config :
  LCConfig_init endpoint the_query the_lc_endpoint the_lc_user
    the_lc_password the_study_oid the_study_identifier the_event_oid
    the_form_oid the_item_group_oid the_identifier_colname
    the_gender_colname the_item_prefix alternative gate = Ok config ->
  alternative = None
  /\ alternative_item_oids config = ∅
  /\ (forall df, df_rename df (alternative_item_oids config) = df)
  /\ perform_query config = gate.
Proof.
  unfold LCConfig_init.
  destruct endpoint; [|discriminate].
  destruct the_query; [|discriminate].
  destruct the_lc_endpoint; [|discriminate].
  destruct the_lc_user; [|discriminate].
  destruct the_lc_password; [|discriminate].
  destruct the_study_oid; [|discriminate].
  destruct the_study_identifier; [|discriminate].
  destruct the_event_oid; [|discriminate].
  destruct the_form_oid; [|discriminate].
  destruct the_item_group_oid; [|discriminate].
  destruct the_identifier_colname; [|discriminate].
  destruct the_gender_colname; [|discriminate].
  destruct the_item_prefix; [|discriminate].
  destruct alternative; [discriminate|].
  intros [= <-]. cbn.
  split; [reflexivity|]. split; [reflexivity|].
  split; [intros df; apply df_rename_empty|reflexivity].
Qed.

(** The configuration of the reference world is a constructed one, and
    a configuration with a renaming is refused. *)
Lemma constructed_config_witness :
  (forall df, df_rename df (alternative_item_oids Reference.config) = df)
  /\ LCConfig_init (Some (lit "http://fair/sparql")) (Some (lit "SELECT"))
       (Some (lit "http://lc/ws/")) (Some (lit "user")) (Some (lit "hash"))
       (Some (lit "S_1")) (Some (lit "STUDY")) (Some (lit "SE_1"))
       (Some (lit "F_1")) (Some (lit "IG_1")) (Some (lit "id"))
       (Some (lit "gender")) (Some (lit "I_"))
       (Some {[ lit "name" := lit "NAME" ]}) true = Raise ValueError.
Proof.
  split; [|reflexivity].
  exact (proj1 (proj2 (proj2
           (constructed_config_keeps_column_names
              (Some (lit "http://fair/sparql")) (Some (lit "SELECT"))
              (Some (lit "http://lc/ws/")) (Some (lit "user"))
              (Some (lit "hash")) (Some (lit "S_1")) (Some (lit "STUDY"))
              (Some (lit "SE_1")) (Some (lit "F_1")) (Some (lit "IG_1"))
              (Some (lit "id")) (Some (lit "gender")) (Some (lit "I_"))
              None true Reference.config eq_refl)))).
Defined.
